(** * Cyclone: master dispatch loop, worker loop and worker state table

    A shallow embedding of the Python sources

      - [cyclone-master.py]          (the dispatch loop of [main]),
      - [worker.py]                  ([WorkerStateTableItem], [Worker.run]),
      - [ctrl/critical_section.py]   ([CriticalSection]),
      - [master_comm_handler.py]     ([MasterCommHandler.recv]),
      - [conf/controller_config_file_reader.py],
      - [lfs/lfs_utils.py]           ([LFSUtils.set_stripe]),
      - [task/alert_io_task.py]      (the mail of [AlertIOTask]),

    together with the properties of the dispatch protocol that are stated
    about them.  Python exceptions are values of [exception]; a statement
    that may raise is a function into [outcome]. *)

From Stdlib Require Import ZArith Lia.
From stdpp Require Import base strings list gmap.

Open Scope string_scope.
Open Scope list_scope.
Open Scope Z_scope.

(** ** Python values shared by all modules *)

Module Py.

(** The exception classes the sources raise or can meet.  The last two
    derive from [BaseException] only, so [except Exception] lets them
    through. *)
Inductive exception : Type :=
| RuntimeError (msg : string)
| AttributeError (msg : string)
| ValueError (msg : string)
| KeyError (key : string)
| UnicodeError (msg : string)
| MessageError (msg : string)
| TransportError (msg : string)
| TaskExecuteError (msg : string)
| KeyboardInterrupt
| SystemExit.

(** [isinstance(e, Exception)] *)
Definition is_Exception (e : exception) : bool :=
  match e with
  | KeyboardInterrupt | SystemExit => false
  | _ => true
  end.

Inductive outcome (A : Type) : Type :=
| Ok (a : A)
| Raise (e : exception).
Arguments Ok {A} a.
Arguments Raise {A} e.

(** A Python [str] is a sequence of code points, a [bytes] a sequence of
    integers below 256. *)
Definition str := list Z.
Definition bytes := list Z.

Definition is_ascii (s : str) : bool :=
  forallb (fun c => (0 <=? c) && (c <? 128)) s.

(** [str.encode()]: UTF-8, error handler [strict]. *)
Definition utf8_encode_char (c : Z) : outcome bytes :=
  if c <? 0 then Raise (UnicodeError "code point out of range")
  else if c <? 0x80 then Ok [c]
  else if c <? 0x800 then
    Ok [Z.lor 0xC0 (Z.shiftr c 6); Z.lor 0x80 (Z.land c 0x3F)]
  else if c <? 0x10000 then
    if (0xD800 <=? c) && (c <=? 0xDFFF)
    then Raise (UnicodeError "surrogates not allowed")
    else Ok [Z.lor 0xE0 (Z.shiftr c 12);
             Z.lor 0x80 (Z.land (Z.shiftr c 6) 0x3F);
             Z.lor 0x80 (Z.land c 0x3F)]
  else if c <=? 0x10FFFF then
    Ok [Z.lor 0xF0 (Z.shiftr c 18);
        Z.lor 0x80 (Z.land (Z.shiftr c 12) 0x3F);
        Z.lor 0x80 (Z.land (Z.shiftr c 6) 0x3F);
        Z.lor 0x80 (Z.land c 0x3F)]
  else Raise (UnicodeError "code point out of range").

Fixpoint str_encode (s : str) : outcome bytes :=
  match s with
  | [] => Ok []
  | c :: s' =>
      match utf8_encode_char c with
      | Raise e => Raise e
      | Ok bs =>
          match str_encode s' with
          | Raise e => Raise e
          | Ok bs' => Ok (bs ++ bs')
          end
      end
  end.

Definition is_continuation (b : Z) : bool := (0x80 <=? b) && (b <=? 0xBF).

Definition cons_code_point (c : Z) (r : outcome str) : outcome str :=
  match r with
  | Ok s => Ok (c :: s)
  | Raise e => Raise e
  end.

Definition invalid_utf8 : outcome str :=
  Raise (UnicodeError "invalid utf-8").

(** [bytes.decode()]: UTF-8, error handler [strict] (overlong forms,
    surrogates and values above U+10FFFF are refused). *)
Fixpoint bytes_decode (bs : bytes) : outcome str :=
  match bs with
  | [] => Ok []
  | b0 :: r0 =>
      if (0 <=? b0) && (b0 <? 0x80) then cons_code_point b0 (bytes_decode r0)
      else if (0xC2 <=? b0) && (b0 <=? 0xDF) then
        match r0 with
        | b1 :: r1 =>
            if is_continuation b1
            then cons_code_point
                   (Z.lor (Z.shiftl (Z.land b0 0x1F) 6) (Z.land b1 0x3F))
                   (bytes_decode r1)
            else invalid_utf8
        | _ => invalid_utf8
        end
      else if (0xE0 <=? b0) && (b0 <=? 0xEF) then
        match r0 with
        | b1 :: b2 :: r2 =>
            let c := Z.lor (Z.shiftl (Z.land b0 0x0F) 12)
                       (Z.lor (Z.shiftl (Z.land b1 0x3F) 6) (Z.land b2 0x3F)) in
            if is_continuation b1 && is_continuation b2
               && (0x800 <=? c) && negb ((0xD800 <=? c) && (c <=? 0xDFFF))
            then cons_code_point c (bytes_decode r2)
            else invalid_utf8
        | _ => invalid_utf8
        end
      else if (0xF0 <=? b0) && (b0 <=? 0xF4) then
        match r0 with
        | b1 :: b2 :: b3 :: r3 =>
            let c := Z.lor (Z.shiftl (Z.land b0 0x07) 18)
                       (Z.lor (Z.shiftl (Z.land b1 0x3F) 12)
                          (Z.lor (Z.shiftl (Z.land b2 0x3F) 6) (Z.land b3 0x3F))) in
            if is_continuation b1 && is_continuation b2 && is_continuation b3
               && (0x10000 <=? c) && (c <=? 0x10FFFF)
            then cons_code_point c (bytes_decode r3)
            else invalid_utf8
        | _ => invalid_utf8
        end
      else invalid_utf8
  end.

(** A [ctypes] array of [c_char] of fixed size, as
    [multiprocessing.RawArray('c', n)] gives.  Assigning [.value] copies
    the bytes and, when room is left, one terminating NUL; the rest of the
    buffer keeps what it held.  A value longer than the buffer is
    refused. *)
Definition char_array_set_value (buf : bytes) (v : bytes) : outcome bytes :=
  if (length buf <? length v)%nat
  then Raise (ValueError "byte string too long")
  else if (length v <? length buf)%nat
       then Ok (v ++ 0 :: drop (S (length v)) buf)
       else Ok v.

(** Reading [.value] stops at the first NUL, or at the end of the
    buffer. *)
Fixpoint char_array_get_value (buf : bytes) : bytes :=
  match buf with
  | [] => []
  | b :: buf' => if b =? 0 then [] else b :: char_array_get_value buf'
  end.

(** [ctypes.c_int] and [ctypes.c_uint] keep the low 32 bits. *)
Definition c_int (v : Z) : Z := (v + 2 ^ 31) mod 2 ^ 32 - 2 ^ 31.
Definition c_uint (v : Z) : Z := v mod 2 ^ 32.

(** Statements: a state transformer that may raise.  The state reached
    when an exception is raised is kept, as a Python [except] clause sees
    every mutation made before the [raise]. *)
Definition SE (S A : Type) : Type := S -> outcome A * S.

#[global] Instance SE_ret {S} : MRet (SE S) :=
  fun A (a : A) s => (Ok a, s).

#[global] Instance SE_bind {S} : MBind (SE S) :=
  fun A B (k : A -> SE S B) (m : SE S A) s =>
    match m s with
    | (Ok a, s') => k a s'
    | (Raise e, s') => (Raise e, s')
    end.

Definition raise {S A} (e : exception) : SE S A := fun s => (Raise e, s).
Definition gets {S A} (f : S -> A) : SE S A := fun s => (Ok (f s), s).
Definition modify {S} (f : S -> S) : SE S unit := fun s => (Ok tt, f s).
Definition lift {S A} (o : outcome A) : SE S A := fun s => (o, s).
Definition pass {S} : SE S unit := mret tt.

(** [try: m except Exception as err: h err] *)
Definition try_except {S A} (m : SE S A) (h : exception -> SE S A) : SE S A :=
  fun s =>
    match m s with
    | (Raise e, s') => if is_Exception e then h e s' else (Raise e, s')
    | r => r
    end.

(** [try: m finally: f], with [f] a statement that does not raise; this is
    what a [with] block does with the [__exit__] of its manager when
    [__exit__] returns nothing. *)
Definition try_finally {S A} (m : SE S A) (f : S -> S) : SE S A :=
  fun s => let '(r, s') := m s in (r, f s').

End Py.

Export Py.

(** ** [worker.py] *)

Module WorkerState.
Definition NOT_READY : Z := 0.
Definition READY : Z := 1.
Definition EXECUTING : Z := 2.

Definition to_string (state : Z) : outcome string :=
  if NOT_READY =? state then Ok "NOT_READY"
  else if READY =? state then Ok "READY"
  else if EXECUTING =? state then Ok "EXECUTING"
  else Raise (RuntimeError "Not supported worker state detected").
End WorkerState.

Module WorkerStateTableItem.

Record t : Type := mk {
  _state : Z;          (* RawValue(ctypes.c_int)  *)
  _tid : bytes;        (* RawArray('c', 64)       *)
  _timestamp : Z       (* RawValue(ctypes.c_uint) *)
}.

Definition __init__ : t :=
  {| _state := c_int WorkerState.NOT_READY;
     _tid := replicate 64 0;
     _timestamp := c_uint 0 |}.

Definition get_state (self : t) : Z := _state self.
Definition get_tid (self : t) : outcome str :=
  bytes_decode (char_array_get_value (_tid self)).
Definition get_timestamp (self : t) : Z := _timestamp self.

Definition set_state (state : Z) (self : t) : t :=
  {| _state := c_int state; _tid := _tid self; _timestamp := _timestamp self |}.

Definition set_tid (task_name : str) (self : t) : outcome t :=
  match str_encode task_name with
  | Raise e => Raise e
  | Ok v =>
      match char_array_set_value (_tid self) v with
      | Raise e => Raise e
      | Ok buf =>
          Ok {| _state := _state self; _tid := buf; _timestamp := _timestamp self |}
      end
  end.

Definition set_timestamp (timestamp : Z) (self : t) : t :=
  {| _state := _state self; _tid := _tid self; _timestamp := c_uint timestamp |}.

(** The slot as [__init__] allocates it: 64 bytes. *)
Definition allocated (self : t) : Prop := length (_tid self) = 64%nat.

(** A name whose encoding the slot can take. *)
Definition fits (task_name : str) : bool :=
  match str_encode task_name with
  | Ok v => (length v <=? 64)%nat
  | Raise _ => false
  end.

End WorkerStateTableItem.

Module Worker.

Inductive lock_id : Type := lock_worker_state_table | cond_result_queue.

(** What one worker does to the outside, in program order. *)
Inductive event : Type :=
| Acquire (l : lock_id)            (* CriticalSection.__enter__ *)
| Release (l : lock_id)            (* CriticalSection.__exit__  *)
| Push (tid : str)                 (* result_queue.push         *)
| Notify (l : lock_id)             (* cond_result_queue.notify  *)
| Executed (tid : str)             (* task.execute() was run    *)
| LogDebug (msg : string)
| LogError (err : exception).

(** A task is opaque: its identifier, and what [execute()] does when it is
    run (it returns, or raises). *)
Record Task : Type := { tid : str; execute : outcome unit }.

Record state : Type := mk {
  worker_state_table_item : WorkerStateTableItem.t;
  result_queue : list str;
  run_flag : bool;
  held : list lock_id;
  trace : list event
}.

Definition emit (e : event) : SE state unit :=
  modify (fun s => mk (worker_state_table_item s) (result_queue s) (run_flag s)
                      (held s) (trace s ++ [e])).

Definition set_item (i : WorkerStateTableItem.t) : SE state unit :=
  modify (fun s => mk i (result_queue s) (run_flag s) (held s) (trace s)).

Definition set_held (h : list lock_id) (s : state) : state :=
  mk (worker_state_table_item s) (result_queue s) (run_flag s) h (trace s).

Definition set_run_flag (b : bool) (s : state) : state :=
  mk (worker_state_table_item s) (result_queue s) b (held s) (trace s).

Definition lock_eqb (a b : lock_id) : bool :=
  match a, b with
  | lock_worker_state_table, lock_worker_state_table => true
  | cond_result_queue, cond_result_queue => true
  | _, _ => false
  end.

Definition release (l : lock_id) (s : state) : state :=
  mk (worker_state_table_item s) (result_queue s) (run_flag s)
     (filter (fun x => negb (lock_eqb l x) = true) (held s))
     (trace s ++ [Release l]).

(** [with CriticalSection(lock): body], with the class of
    [ctrl/critical_section.py]: [__enter__] acquires (blocking, no
    timeout), [__exit__] releases, also when [body] raised. *)
Definition with_CriticalSection {A} (l : lock_id) (body : SE state A) : SE state A :=
  modify (fun s => set_held (l :: held s) s);;
  emit (Acquire l);;
  try_finally body (release l).

Definition worker_set_state (v : Z) : SE state unit :=
  i ← gets worker_state_table_item;
  set_item (WorkerStateTableItem.set_state v i).

Definition worker_set_tid (v : str) : SE state unit :=
  i ← gets worker_state_table_item;
  i' ← lift (WorkerStateTableItem.set_tid v i);
  set_item i'.

Definition worker_set_timestamp (v : Z) : SE state unit :=
  i ← gets worker_state_table_item;
  set_item (WorkerStateTableItem.set_timestamp v i).

Definition result_queue_push (v : str) : SE state unit :=
  modify (fun s => mk (worker_state_table_item s) (result_queue s ++ [v])
                      (run_flag s) (held s) (trace s));;
  emit (Push v).

(** [Condition.notify()] needs the condition to be held by the caller. *)
Definition notify (l : lock_id) : SE state unit :=
  h ← gets held;
  if existsb (lock_eqb l) h then emit (Notify l)
  else raise (RuntimeError "cannot notify on un-acquired lock").

Definition task_execute (task : Task) : SE state unit :=
  emit (Executed (tid task));;
  lift (execute task).

(** One turn of [while self.run_flag:] in [Worker.run], for the task that
    [self.task_queue.pop()] returned; [t_exec] and [t_ready] are the two
    readings of [int(time.time())]. *)
Definition loop_body (task : Task) (t_exec t_ready : Z) : SE state unit :=
  with_CriticalSection lock_worker_state_table
    (worker_set_state WorkerState.EXECUTING;;
     worker_set_tid (tid task);;
     worker_set_timestamp t_exec);;
  try_except (task_execute task) (fun err => emit (LogError err));;
  with_CriticalSection cond_result_queue
    (result_queue_push (tid task);;
     notify cond_result_queue);;
  with_CriticalSection lock_worker_state_table
    (worker_set_state WorkerState.READY;;
     worker_set_tid [];;
     worker_set_timestamp t_ready).

(** What the task queue and the clock give to one turn of the loop, and
    whether SIGUSR1 came in during it (the handler clears [run_flag]). *)
Record turn : Type := {
  popped : Task;
  time_executing : Z;
  time_ready : Z;
  sigusr1 : bool
}.

Fixpoint while_run_flag (turns : list turn) : SE state unit :=
  match turns with
  | [] => pass
  | u :: rest =>
      go ← gets run_flag;
      if go : bool then
        loop_body (popped u) (time_executing u) (time_ready u);;
        (if sigusr1 u then modify (set_run_flag false) else pass);;
        while_run_flag rest
      else pass
  end.

(** How the process ends: [os._exit(0)], [os._exit(1)], an exception that
    is no [Exception] leaving [run], or still blocked in
    [task_queue.pop()] when the given turns are used up. *)
Inductive ending : Type :=
| Exit (code : Z)
| Uncaught (e : exception)
| Blocked_in_pop.

Definition run (t_start : Z) (turns : list turn) (s : state) : ending * state :=
  let body : SE state unit :=
    emit (LogDebug "Started Worker");;
    with_CriticalSection lock_worker_state_table
      (worker_set_state WorkerState.READY;;
       worker_set_timestamp t_start);;
    while_run_flag turns in
  match body s with
  | (Ok _, s') =>
      if run_flag s' then (Blocked_in_pop, s')
      else (Exit 0, mk (worker_state_table_item s') (result_queue s') (run_flag s')
                      (held s') (trace s' ++ [LogDebug "Exiting worker"]))
  | (Raise e, s') =>
      if is_Exception e
      then (Exit 1, mk (worker_state_table_item s') (result_queue s') (run_flag s')
                       (held s') (trace s' ++ [LogError e]))
      else (Uncaught e, s')
  end.


(** [Worker.__init__] followed by [start()]. *)
Definition started (item : WorkerStateTableItem.t) (results : list str) : state :=
  mk item results true [] [].

End Worker.

(** ** [ctrl/critical_section.py] *)

(** What a caller can ask of the class bound to the name [CriticalSection],
    beyond entering and leaving a [with] block: the method [is_locked], as a
    function of what [lock.acquire] returned in [__enter__]; [None] when the
    class has no attribute of that name. *)
Record CriticalSection_class : Type := {
  is_locked : option (bool -> bool)
}.

Module CriticalSection.

(** An instance: [__init__(self, lock, block=True, timeout=None)].  The
    lock itself lives in the state of the process that uses it. *)
Record t : Type := { _block : bool; _timeout : option Z }.

Definition __init__ (block : option bool) (timeout : option Z) : t :=
  {| _block := default true block; _timeout := timeout |}.

(** [__enter__] calls [self._lock.acquire(self._block, self._timeout)],
    drops what it returns and returns [self]. *)
Definition __enter__ (self : t) (acquire_result : bool) : t := self.

(** The class as [ctrl/critical_section.py] defines it: its methods are
    [__init__], [__enter__] and [__exit__], and no other. *)
Definition class : CriticalSection_class := {| is_locked := None |}.

End CriticalSection.


(** ** [master_comm_handler.py] *)

Module MasterCommHandler.

(** [__init__(self, target, port)]: no timeout is taken or kept. *)
Record t : Type := { target : string; port : Z }.

Definition __init__ (target : string) (port : Z) : t :=
  {| target := target; port := port |}.

(** What a call has done after some time: it returned a value ([None] is
    Python's [None]), or it is still waiting. *)
Inductive progress (A : Type) : Type :=
| Returned (v : A)
| Waiting.
Arguments Returned {A} v.
Arguments Waiting {A}.

(** The socket seen from the receiver: [arrivals n] is the message that
    comes in at tick [n], if any.  [socket.recv()] with default flags
    returns the first message from tick [now] on and does nothing else;
    [ticks] is how long the caller has been waiting. *)
Fixpoint socket_recv (arrivals : nat -> option string) (now ticks : nat)
  : progress (option string) :=
  match arrivals now with
  | Some in_msg => Returned (Some in_msg)
  | None =>
      match ticks with
      | O => Waiting
      | S ticks' => socket_recv arrivals (S now) ticks'
      end
  end.

(** [recv(self)]: [in_msg = self.socket.recv(); return in_msg] *)
Definition recv (self : t) (arrivals : nat -> option string) (now ticks : nat)
  : progress (option string) :=
  socket_recv arrivals now ticks.

(** Modelled from the spec: the receive of section 4.3, which "on expiry
    returns absence rather than blocking forever"; [poll_timeout] is in
    ticks.  [master_comm_handler.py] has no such method. *)
Fixpoint recv_with_poll_timeout (poll_timeout : nat)
    (arrivals : nat -> option string) (now ticks : nat)
  : progress (option string) :=
  match arrivals now with
  | Some in_msg => Returned (Some in_msg)
  | None =>
      match poll_timeout with
      | O => Returned None
      | S poll_timeout' =>
          match ticks with
          | O => Waiting
          | S ticks' => recv_with_poll_timeout poll_timeout' arrivals (S now) ticks'
          end
      end
  end.

(** A socket on which nothing ever arrives. *)
Definition silent : nat -> option string := fun _ => None.

End MasterCommHandler.

(** ** [cyclone-master.py] *)

Module Master.

(** *** Messages *)

Inductive MessageType : Type :=
| TASK_REQUEST | TASK_FINISHED | HEARTBEAT
| TASK_ASSIGN | WAIT_COMMAND | ACKNOWLEDGE | EXIT_COMMAND.

(** What [MessageFactory.create] returns: the type, and the attributes
    [sender] and [tid] where the message class has them. *)
Record recv_message : Type := {
  type : MessageType;
  sender : option string;
  msg_tid : option string
}.

Record Task : Type := { tid : string; body : string }.

(** The messages [main] builds and sends. *)
Inductive send_message : Type :=
| TaskAssign (task : Task)
| WaitCommand (duration : Z)
| Acknowledge
| ExitCommand.

(** *** Task status *)

Inductive TaskState : Type := assigned | finished.

Definition TaskState_eqb (a b : TaskState) : bool :=
  match a, b with
  | assigned, assigned | finished, finished => true
  | _, _ => false
  end.

Record TaskStatusItem : Type := {
  item_tid : string;
  state : TaskState;
  controller : string;
  timestamp : Z
}.

(** *** The heartbeat [dict]: keys in insertion order *)

Fixpoint dict_set (k : string) (v : Z) (d : list (string * Z)) : list (string * Z) :=
  match d with
  | [] => [(k, v)]
  | (k', v') :: d' =>
      if String.eqb k k' then (k, v) :: d' else (k', v') :: dict_set k v d'
  end.

Fixpoint dict_pop (k : string) (d : list (string * Z)) : list (string * Z) :=
  match d with
  | [] => []
  | (k', v') :: d' =>
      if String.eqb k k' then d' else (k', v') :: dict_pop k d'
  end.

Fixpoint dict_get (k : string) (d : list (string * Z)) : option Z :=
  match d with
  | [] => None
  | (k', v') :: d' => if String.eqb k k' then Some v' else dict_get k d'
  end.

Definition dict_keys (d : list (string * Z)) : list string := map fst d.

(** *** What the process does to the outside, in program order *)

Inductive level : Type := DEBUG | INFO | WARNING | ERROR.

Inductive event : Type :=
| Send (m : send_message)          (* comm_handler.send_string *)
| Log (l : level) (text : string)
| LogException (err : exception)   (* logging.error in the except clause *)
| LockAcquire (result : bool)      (* task_queue.lock.acquire(True, 1) *)
| LockRelease.

(** *** State of [main] while the loop runs *)

Record master_state : Type := mk {
  TASK_DISTRIBUTION : bool;
  run_flag : bool;
  error_count : Z;
  controller_heartbeat_dict : list (string * Z);
  task_status_dict : gmap string TaskStatusItem;
  controller_wait_duration : Z;
  task_queue : list Task;
  result_queue : list string;
  trace : list event
}.

Definition set_TASK_DISTRIBUTION (v : bool) (s : master_state) : master_state :=
  mk v (run_flag s) (error_count s) (controller_heartbeat_dict s)
     (task_status_dict s) (controller_wait_duration s) (task_queue s)
     (result_queue s) (trace s).

Definition set_run_flag (v : bool) (s : master_state) : master_state :=
  mk (TASK_DISTRIBUTION s) v (error_count s) (controller_heartbeat_dict s)
     (task_status_dict s) (controller_wait_duration s) (task_queue s)
     (result_queue s) (trace s).

Definition set_error_count (v : Z) (s : master_state) : master_state :=
  mk (TASK_DISTRIBUTION s) (run_flag s) v (controller_heartbeat_dict s)
     (task_status_dict s) (controller_wait_duration s) (task_queue s)
     (result_queue s) (trace s).

Definition set_controller_heartbeat_dict (v : list (string * Z)) (s : master_state)
  : master_state :=
  mk (TASK_DISTRIBUTION s) (run_flag s) (error_count s) v
     (task_status_dict s) (controller_wait_duration s) (task_queue s)
     (result_queue s) (trace s).

Definition set_task_status_dict (v : gmap string TaskStatusItem) (s : master_state)
  : master_state :=
  mk (TASK_DISTRIBUTION s) (run_flag s) (error_count s) (controller_heartbeat_dict s)
     v (controller_wait_duration s) (task_queue s) (result_queue s) (trace s).

Definition set_controller_wait_duration (v : Z) (s : master_state) : master_state :=
  mk (TASK_DISTRIBUTION s) (run_flag s) (error_count s) (controller_heartbeat_dict s)
     (task_status_dict s) v (task_queue s) (result_queue s) (trace s).

Definition set_task_queue (v : list Task) (s : master_state) : master_state :=
  mk (TASK_DISTRIBUTION s) (run_flag s) (error_count s) (controller_heartbeat_dict s)
     (task_status_dict s) (controller_wait_duration s) v (result_queue s) (trace s).

Definition set_result_queue (v : list string) (s : master_state) : master_state :=
  mk (TASK_DISTRIBUTION s) (run_flag s) (error_count s) (controller_heartbeat_dict s)
     (task_status_dict s) (controller_wait_duration s) (task_queue s) v (trace s).

Definition set_trace (v : list event) (s : master_state) : master_state :=
  mk (TASK_DISTRIBUTION s) (run_flag s) (error_count s) (controller_heartbeat_dict s)
     (task_status_dict s) (controller_wait_duration s) (task_queue s)
     (result_queue s) v.

Definition emit (e : event) : SE master_state unit :=
  modify (fun s => set_trace (trace s ++ [e]) s).

(** The replies sent so far, oldest first. *)
Definition replies (tr : list event) : list send_message :=
  omap (fun e => match e with Send m => Some m | _ => None end) tr.

(** *** What is configured and what is imported *)

Record deployment : Type := {
  controller_timeout : Z;
  task_resend_timeout : Z;
  max_error_count : Z;
  MessageFactory_create : string -> outcome recv_message;
  CriticalSection : CriticalSection_class
}.

(** The signals [main] installs [signal_handler] for. *)
Inductive signum : Type := SIGHUP | SIGINT | SIGTERM.

(** What the surroundings give to one turn of [while run_flag:]. *)
Record turn : Type := {
  generated : list Task;          (* pushed by the task generator meanwhile *)
  time_loop : Z;                  (* int(time.time()) at the top of the turn *)
  signals : list signum;          (* delivered while recv_string waits *)
  recv_string : outcome (option string);  (* None: the poll timed out *)
  time_recv : Z;                  (* int(time.time()) for the heartbeat *)
  lock_acquire : bool;            (* task_queue.lock.acquire(True, 1) *)
  generator_alive : bool;         (* task_generator.is_alive() *)
  time_handle : Z                 (* int(time.time()) when a record is written *)
}.

(** *** Functions of the module *)

Definition stop_task_distribution : SE master_state unit :=
  td ← gets TASK_DISTRIBUTION;
  if td : bool then modify (set_TASK_DISTRIBUTION false) else pass.

Definition signal_handler (sig : signum) : SE master_state unit :=
  match sig with
  | SIGHUP =>
      emit (Log INFO "Master retrieved hang-up signal.");;
      stop_task_distribution
  | SIGINT =>
      emit (Log INFO "Master retrieved interrupt program signal.");;
      stop_task_distribution
  | SIGTERM =>
      emit (Log INFO "Master Retrieved signal to terminate.");;
      stop_task_distribution
  end.

Fixpoint deliver (sigs : list signum) : SE master_state unit :=
  match sigs with
  | [] => pass
  | sig :: rest => signal_handler sig;; deliver rest
  end.

Definition check_all_controller_down (count_active_controller : nat)
  : SE master_state bool :=
  match count_active_controller with
  | O =>
      emit (Log INFO "Shutdown of controllers complete!");;
      mret true
  | S _ =>
      emit (Log DEBUG "Waiting for number of controllers to quit");;
      mret false
  end.

(** Reading an attribute that the object may lack. *)
Definition getattr {A} (name : string) (a : option A) : SE master_state A :=
  match a with
  | Some v => mret v
  | None => raise (AttributeError name)
  end.

Definition send_string (m : send_message) : SE master_state unit :=
  emit (Send m).

(** Modelled from the spec: the shared queue of section 4.2, an ordered
    FIFO sequence; [push] appends, [pop_nowait] takes the head.
    [ctrl/shared_queue.py] is not among the sources. *)
Definition result_queue_push (v : string) : SE master_state unit :=
  modify (fun s => set_result_queue (result_queue s ++ [v]) s).

(** Lines 228-243: the [with CriticalSection(task_queue.lock, timeout=1)]
    block; gives the local variable [task]. *)
Definition acquire_task (w : deployment) (u : turn) : SE master_state (option Task) :=
  emit (LockAcquire (lock_acquire u));;
  try_finally
    (locked ← match is_locked (CriticalSection w) with
              | Some test => mret (test (lock_acquire u))
              | None => raise (AttributeError "is_locked")
              end;
     if locked : bool then
       q ← gets task_queue;
       match q with
       | task :: q' =>
           modify (set_task_queue q');;
           mret (Some task)
       | [] =>
           if negb (generator_alive u) then
             modify (set_TASK_DISTRIBUTION false);;
             modify (set_controller_wait_duration 0);;
             emit (Log INFO "Task Generator is not alive.");;
             mret None
           else mret None
       end
     else mret None)
    (fun s => set_trace (trace s ++ [LockRelease]) s).

(** Lines 245-285: gives the local variable [send_msg]. *)
Definition decide_assignment (w : deployment) (u : turn)
    (recv_sender : string) (last_exec_timestamp : Z) (task : option Task)
  : SE master_state send_message :=
  match task with
  | Some task =>
      tsd ← gets task_status_dict;
      verdict ←
        match tsd !! tid task with
        | Some rec =>
            let task_resend_threshold := timestamp rec + task_resend_timeout w in
            if TaskState_eqb (state rec) finished
               || (task_resend_threshold <=? last_exec_timestamp)
            then mret None
            else if TaskState_eqb (state rec) assigned
                    && (last_exec_timestamp <? task_resend_threshold)
            then
              emit (Log DEBUG "Ignoring task to assign...");;
              d ← gets controller_wait_duration;
              mret (Some (WaitCommand d))
            else raise (RuntimeError "Undefined state processing task")
        | None => mret None
        end;
      match verdict with
      | None =>   (* do_task_assign *)
          modify (fun s =>
            set_task_status_dict
              (<[tid task :=
                   {| item_tid := tid task; state := assigned;
                      controller := recv_sender; timestamp := time_handle u |}]>
                 (task_status_dict s)) s);;
          mret (TaskAssign task)
      | Some send_msg => mret send_msg
      end
  | None =>
      d ← gets controller_wait_duration;
      mret (WaitCommand d)
  end.

(** Lines 290-316. *)
Definition task_finished (u : turn) (recv_msg : recv_message) (recv_sender : string)
  : SE master_state unit :=
  tid ← getattr "tid" (msg_tid recv_msg);
  tsd ← gets task_status_dict;
  match tsd !! tid with
  | Some rec =>
      if String.eqb recv_sender (controller rec) then
        emit (Log DEBUG "Retrieved finished message for TID");;
        modify (fun s =>
          set_task_status_dict
            (<[tid := {| item_tid := item_tid rec; state := finished;
                         controller := controller rec;
                         timestamp := time_handle u |}]> (task_status_dict s)) s);;
        emit (Log DEBUG "Pushing TID to result queue");;
        result_queue_push tid
      else
        emit (Log WARNING "Retrieved task finished from different controller!")
  | None => raise (RuntimeError "Inconsistency detected on task finished!")
  end;;
  emit (Log DEBUG "Sending message");;
  send_string Acknowledge.

(** Lines 351-357: [for controller_name in controller_heartbeat_dict.keys()].
    The key view iterates the dictionary itself: each step first compares
    the size of the dictionary with the size it had when the iteration
    began, and raises when they differ; this also holds for the step that
    would end the loop. *)
Fixpoint for_keys (keys : list string) (size_at_start : nat)
    (body : string -> SE master_state unit) : SE master_state unit :=
  d ← gets controller_heartbeat_dict;
  if negb (length d =? size_at_start)%nat
  then raise (RuntimeError "dictionary changed size during iteration")
  else match keys with
       | [] => pass
       | k :: rest => body k;; for_keys rest size_at_start body
       end.

Definition prune_body (w : deployment) (last_exec_timestamp : Z)
    (controller_name : string) : SE master_state unit :=
  d ← gets controller_heartbeat_dict;
  match dict_get controller_name d with
  | None => raise (KeyError controller_name)
  | Some seen =>
      let controller_threshold := seen + controller_timeout w in
      if controller_threshold <=? last_exec_timestamp
      then modify (fun s =>
             set_controller_heartbeat_dict
               (dict_pop controller_name (controller_heartbeat_dict s)) s)
      else pass
  end.

Definition all_down_then_stop : SE master_state unit :=
  d ← gets controller_heartbeat_dict;
  down ← check_all_controller_down (length d);
  if down : bool then modify (set_run_flag false) else pass.

(** Lines 206-360: the body of the [try] of one turn. *)
Definition try_block (w : deployment) (u : turn) : SE master_state unit :=
  let last_exec_timestamp := time_loop u in
  deliver (signals u);;
  recv_data ← lift (recv_string u);
  match recv_data with
  | Some (String c raw' as raw) =>
      emit (Log DEBUG "Retrieved message");;
      recv_msg ← lift (MessageFactory_create w raw);
      let recv_msg_type := type recv_msg in
      recv_sender ← getattr "sender" (sender recv_msg);
      modify (fun s =>
        set_controller_heartbeat_dict
          (dict_set recv_sender (time_recv u) (controller_heartbeat_dict s)) s);;
      td ← gets TASK_DISTRIBUTION;
      if td : bool then
        match recv_msg_type with
        | TASK_REQUEST =>
            task ← acquire_task w u;
            send_msg ← decide_assignment w u recv_sender last_exec_timestamp task;
            emit (Log DEBUG "Sending message");;
            send_string send_msg
        | TASK_FINISHED => task_finished u recv_msg recv_sender
        | HEARTBEAT =>
            emit (Log DEBUG "Sending message");;
            send_string Acknowledge
        | _ => raise (RuntimeError "Undefined type found in message")
        end
      else
        emit (Log DEBUG "Sending message");;
        send_string ExitCommand;;
        modify (fun s =>
          set_controller_heartbeat_dict
            (dict_pop recv_sender (controller_heartbeat_dict s)) s);;
        all_down_then_stop
  | _ =>
      emit (Log DEBUG "RECV-MSG TIMEOUT");;
      td ← gets TASK_DISTRIBUTION;
      if negb td then
        d ← gets controller_heartbeat_dict;
        for_keys (dict_keys d) (length d) (prune_body w last_exec_timestamp);;
        all_down_then_stop
      else pass
  end.

(** Lines 362-372: [except Exception as err]. *)
Definition except_clause (w : deployment) (err : exception) : SE master_state unit :=
  modify (fun s => set_error_count (error_count s + 1) s);;
  emit (LogException err);;
  stop_task_distribution;;
  n ← gets error_count;
  if n =? max_error_count w then modify (set_run_flag false) else pass.

(** One turn of the loop; the task generator pushes on its own. *)
Definition iteration (w : deployment) (u : turn) : SE master_state unit :=
  modify (fun s => set_task_queue (task_queue s ++ generated u) s);;
  try_except (try_block w u) (except_clause w).

Fixpoint while_run_flag (w : deployment) (turns : list turn) : SE master_state unit :=
  match turns with
  | [] => pass
  | u :: rest =>
      go ← gets run_flag;
      if go : bool then iteration w u;; while_run_flag w rest else pass
  end.

(** The state in which the loop is entered (lines 187-200). *)
Definition started (wait_duration : Z) : master_state :=
  {| TASK_DISTRIBUTION := true;
     run_flag := true;
     error_count := 0;
     controller_heartbeat_dict := [];
     task_status_dict := ∅;
     controller_wait_duration := wait_duration;
     task_queue := [];
     result_queue := [];
     trace := [] |}.

(** *** Vocabulary of the statements *)

(** A message comes in during the turn [u] and decodes to [m], sent by
    [c]. *)
Definition arrives (w : deployment) (u : turn) (m : recv_message) (c : string) : Prop :=
  exists raw, raw <> ""
              /\ recv_string u = Ok (Some raw)
              /\ MessageFactory_create w raw = Ok m
              /\ sender m = Some c.

(** The poll timed out: [recv_string] returned nothing, or an empty
    string. *)
Definition times_out (u : turn) : Prop :=
  recv_string u = Ok None \/ recv_string u = Ok (Some "").

(** An entry of the heartbeat dictionary whose timeout has elapsed at
    [now]. *)
Definition expired (w : deployment) (now seen : Z) : bool :=
  seen + controller_timeout w <=? now.

(** The dictionary without its first expired entry, if it has one. *)
Fixpoint pop_first_expired (w : deployment) (now : Z) (d : list (string * Z))
  : option (list (string * Z)) :=
  match d with
  | [] => None
  | (k, seen) :: d' =>
      if expired w now seen then Some d'
      else option_map (cons (k, seen)) (pop_first_expired w now d')
  end.

(** The dictionary without any of its expired entries. *)
Definition without_expired (w : deployment) (now : Z) (d : list (string * Z))
  : list (string * Z) :=
  filter (fun kv => expired w now kv.2 = false) d.


(** What one turn, from [s] to [s'], sends: at most one reply; only EXIT,
    if any, when the flag was off before; and nothing but EXIT or WAIT(0)
    when the flag went off during the turn. *)
Definition turn_summary (s s' : master_state) : Prop :=
  exists l,
    replies (trace s') = replies (trace s) ++ l
    /\ (length l <= 1)%nat
    /\ (TASK_DISTRIBUTION s = false ->
        TASK_DISTRIBUTION s' = false /\ (l = [] \/ l = [ExitCommand]))
    /\ (TASK_DISTRIBUTION s = true -> TASK_DISTRIBUTION s' = false ->
        l = [] \/ l = [ExitCommand] \/ l = [WaitCommand 0]).


End Master.

(** ** [cyclone-master.py]: what a turn keeps of the books *)

Module Bookkeeping.
Import Master.

Definition records_kept (s s' : master_state) : Prop :=
  (forall k, is_Some (task_status_dict s !! k) -> is_Some (task_status_dict s' !! k))
  /\ ((forall k rec, task_status_dict s !! k = Some rec -> item_tid rec = k) ->
      forall k rec, task_status_dict s' !! k = Some rec -> item_tid rec = k).

Definition finish_attributed (w : deployment) (u : turn) (s s' : master_state) : Prop :=
  forall k rec rec',
    task_status_dict s !! k = Some rec ->
    state rec = assigned ->
    task_status_dict s' !! k = Some rec' ->
    state rec' = finished ->
    exists raw m,
      recv_string u = Ok (Some raw)
      /\ MessageFactory_create w raw = Ok m
      /\ type m = TASK_FINISHED
      /\ msg_tid m = Some k
      /\ sender m = Some (controller rec)
      /\ rec' = {| item_tid := item_tid rec; state := finished;
                   controller := controller rec; timestamp := time_handle u |}
      /\ result_queue s' = result_queue s ++ [k].


Definition errors_counted (w : deployment) (s s' : master_state) : Prop :=
  error_count s' = error_count s
  \/ error_count s' = error_count s + 1
     /\ TASK_DISTRIBUTION s' = false
     /\ run_flag s' = (if error_count s' =? max_error_count w
                       then false else run_flag s).

End Bookkeeping.

(** ** [worker.py]: vocabulary for whole runs *)

Module WorkerRun.
Import Worker.

(** The turns the loop gets to: up to and with the first one during which
    SIGUSR1 came in. *)
Fixpoint processed (turns : list turn) : list turn :=
  match turns with
  | [] => []
  | u :: rest => u :: (if sigusr1 u then [] else processed rest)
  end.

(** A task the loop can handle: its tid fits the slot and [execute()]
    raises, if at all, an [Exception]. *)
Definition manageable (task : Task) : Prop :=
  WorkerStateTableItem.fits (tid task) = true
  /\ forall err, execute task = Raise err -> is_Exception err = true.

(** The part of a name that [get_tid] can give back: up to the first NUL. *)
Fixpoint up_to_nul (name : str) : str :=
  match name with
  | [] => []
  | c :: name' => if c =? 0 then [] else c :: up_to_nul name'
  end.

End WorkerRun.

(** ** [cyclone-master.py], after the loop (lines 386-416) *)

Module MasterShutdown.

(** The task generator as the shutdown sees it: [ends_after] is the number
    of seconds, counted from the first test, after which the process is
    gone; [None] when it does not end by itself. *)
Record generator : Type := { ends_after : option nat }.

Inductive event : Type :=
| Kill_SIGUSR1                     (* os.kill(task_generator.pid, SIGUSR1) *)
| LogWaiting                       (* logging.debug("Waiting for ...")     *)
| Sleep                            (* time.sleep(1)                        *)
| Terminate                        (* task_generator.terminate()           *)
| Join                             (* task_generator.join()                *)
| LogError (err : exception)
| LogFinished.

Record state : Type := mk {
  error_count : Z;
  elapsed : nat;                   (* seconds slept so far *)
  trace : list event
}.

Definition emit (e : event) : SE state unit :=
  modify (fun s => mk (error_count s) (elapsed s) (trace s ++ [e])).

Definition sleep : SE state unit :=
  modify (fun s => mk (error_count s) (S (elapsed s)) (trace s ++ [Sleep])).

(** [task_generator.is_alive()] *)
Definition is_alive (g : generator) : SE state bool :=
  t ← gets elapsed;
  mret (match ends_after g with
        | Some d => (t <? d)%nat
        | None => true
        end).

(** [for _ in range(0, 10, 1)]: leave at the first test that finds the
    generator gone. *)
Fixpoint wait_for_generator (rounds : nat) (g : generator) : SE state unit :=
  match rounds with
  | O => pass
  | S rounds' =>
      alive ← is_alive g;
      if alive : bool then
        emit LogWaiting;;
        sleep;;
        wait_for_generator rounds' g
      else pass
  end.

(** Lines 388-402, the body of the [try]; [kill] is what [os.kill] does. *)
Definition stop_generator (task_generator : option generator) (kill : outcome unit)
  : SE state unit :=
  match task_generator with
  | None => pass
  | Some g =>
      alive ← is_alive g;
      if alive : bool then
        emit Kill_SIGUSR1;;
        lift kill;;
        wait_for_generator 10 g;;
        still ← is_alive g;
        if still : bool then emit Terminate;; emit Join else pass
      else pass
  end.

(** Lines 386-416: gives the exit code of the process. *)
Definition finish (task_generator : option generator) (kill : outcome unit)
  : SE state Z :=
  try_except (stop_generator task_generator kill)
    (fun err =>
       modify (fun s => mk (error_count s + 1) (elapsed s) (trace s));;
       emit (LogError err));;
  emit LogFinished;;
  n ← gets error_count;
  mret (if n =? 0 then 0 else 1).

(** The loop was left with [n] errors counted. *)
Definition after_loop (n : Z) : state := mk n 0 [].

(** The waiting rounds of a generator that is alive for [d] more seconds. *)
Definition waited (d : nat) : list event :=
  concat (replicate (Nat.min d 10) [LogWaiting; Sleep]).

End MasterShutdown.

(** ** [ctrl/critical_section.py] on a lock *)

(** A lock with the documented behaviour of [multiprocessing.Lock]: not
    recursive, and [release] may be called by any process. *)
Module Lock.

Inductive holder : Type := this_process | another_process.

(** [None]: unlocked. *)
Definition t : Type := option holder.

Inductive attempt : Type :=
| Got                (* acquire returned True  *)
| Refused            (* acquire returned False *)
| Stuck.             (* acquire does not return *)

(** [lock.acquire(block, timeout)] called by this process; [freed] says
    whether the holder lets go while the call waits. *)
Definition acquire (block : bool) (timeout : option Z) (freed : bool) (l : t)
  : attempt * t :=
  match l with
  | None => (Got, Some this_process)
  | Some _ =>
      if block then
        if freed then (Got, Some this_process)
        else match timeout with
             | Some _ => (Refused, l)
             | None => (Stuck, l)
             end
      else (Refused, l)
  end.

(** [lock.release()]: whoever holds the lock, it is unlocked; on an
    unlocked lock [ValueError]. *)
Definition release (l : t) : outcome unit * t :=
  match l with
  | Some _ => (Ok tt, None)
  | None => (Raise (ValueError "semaphore or lock released too many times"), None)
  end.

End Lock.

Module CriticalSectionBlock.

(** [with CriticalSection(lock, block, timeout): body] on a state made of
    the lock and the data [B] it protects.  [__enter__] drops the result of
    [acquire]; [__exit__] calls [release] and returns nothing, so an
    exception of the body goes on, unless [release] itself raises.  [None]:
    [__enter__] does not return. *)
Definition run {B A : Type} (self : CriticalSection.t) (freed : bool)
    (body : SE (Lock.t * B) A) (s : Lock.t * B)
  : option (outcome A * (Lock.t * B)) :=
  match Lock.acquire (CriticalSection._block self) (CriticalSection._timeout self)
          freed s.1 with
  | (Lock.Stuck, _) => None
  | (_, l1) =>
      let '(r, (l2, b2)) := body (l1, s.2) in
      match Lock.release l2 with
      | (Ok _, l3) => Some (r, (l3, b2))
      | (Raise e, l3) => Some (Raise e, (l3, b2))
      end
  end.

(** A body that leaves the lock alone. *)
Definition keeps_lock {B A : Type} (body : SE (Lock.t * B) A) : Prop :=
  forall l b, (body (l, b)).2.1 = l.

End CriticalSectionBlock.

(** ** [conf/controller_config_file_reader.py] *)

Module ControllerConfigFileReader.

Inductive error : Type :=
| IOError (msg : string)
| ParserError (msg : string)       (* what configparser, or [int], raises *)
| ConfigValueError (msg : string).

(** The configuration file as the reader meets it: whether it is a file,
    whether [config.read] takes it, and what [config.get] and
    [config.getint] give for a section and an option.  The messages of the
    two exceptions the reader raises itself stand without the value they
    are formatted with. *)
Record config_file : Type := {
  isfile : bool;
  read : option string;            (* the parsing error, if any *)
  get : string -> string -> string + string;      (* error or value *)
  getint : string -> string -> string + Z
}.

Record t : Type := {
  pid_file : string;
  request_retry_wait_duration : Z;
  max_num_request_retries : Z;
  comm_target : string;
  comm_port : Z;
  poll_timeout : Z;
  log_filename : string;
  worker_count : Z
}.

#[global] Instance error_bind : MBind (sum error) :=
  fun A B (k : A -> error + B) (r : error + A) =>
    match r with
    | inl e => inl e
    | inr a => k a
    end.

Definition lookup {A} (r : string + A) : error + A :=
  match r with
  | inl msg => inl (ParserError msg)
  | inr v => inr v
  end.

Definition validate (self : t) : error + unit :=
  if (worker_count self <? 1) || (1000 <? worker_count self)
  then inl (ConfigValueError "Not supported worker count detected")
  else inr tt.

Definition __init__ (f : config_file) : error + t :=
  if negb (isfile f)
  then inl (IOError "The config file does not exist or is not a file")
  else
    match read f with
    | Some msg => inl (ParserError msg)
    | None =>
        pid ← lookup (get f "control" "pid_file");
        wait ← lookup (getint f "control" "request_retry_wait_duration");
        retries ← lookup (getint f "control" "max_num_request_retries");
        target ← lookup (get f "comm" "target");
        port ← lookup (getint f "comm" "port");
        poll ← lookup (getint f "comm" "poll_timeout");
        log ← lookup (get f "log" "filename");
        workers ← lookup (getint f "processing" "worker_count");
        let self :=
          {| pid_file := pid;
             request_retry_wait_duration := wait;
             max_num_request_retries := retries;
             comm_target := target;
             comm_port := port;
             poll_timeout := poll * 1000;
             log_filename := log;
             worker_count := workers |} in
        _ ← validate self;
        inr self
    end.

End ControllerConfigFileReader.

(** ** [lfs/lfs_utils.py] *)

Module LFSUtils.

Record t : Type := { lfs_bin : string; ost_prefix_len : nat }.

Definition __init__ (lfs_bin : string) : t :=
  {| lfs_bin := lfs_bin; ost_prefix_len := String.length "OST" |}.

(** [s[n:]] *)
Fixpoint slice_from (n : nat) (s : string) : string :=
  match n, s with
  | O, _ => s
  | S n', String _ s' => slice_from n' s'
  | S _, EmptyString => EmptyString
  end.

(** What [commands.getstatusoutput] gives for a command, and the files
    that exist when it is done. *)
Record executed : Type := {
  status : Z;
  output : string;
  files_after : gset string
}.

(** The files that exist and the commands run so far.  The messages of
    the errors stand without the path and the output they are formatted
    with. *)
Record world : Type := { files : gset string; commands : list string }.

(** [os.path.isfile] *)
Definition isfile (path : string) (w : world) : bool :=
  bool_decide (path ∈ files w).

Definition stripe_command (self : t) (ost_name file_path : string) : string :=
  let ost_idx := slice_from (ost_prefix_len self) ost_name in
  lfs_bin self +:+ " setstripe --stripe-index 0x" +:+ ost_idx
    +:+ " --stripe-count 1 --stripe-size 0 " +:+ file_path.

Definition set_stripe (shell : string -> gset string -> executed)
    (self : t) (ost_name file_path : string) : SE world unit :=
  found ← gets (isfile (lfs_bin self));
  if negb found then raise (RuntimeError "LFS binary was not found")
  else
    let cmd := stripe_command self ost_name file_path in
    w ← gets id;
    let r := shell cmd (files w) in
    modify (fun w => {| files := files_after r; commands := commands w ++ [cmd] |});;
    if 0 <? status r then raise (RuntimeError "Failed to set stripe for file")
    else
      created ← gets (isfile file_path);
      if negb created
      then raise (RuntimeError "Failed to create file via setstripe")
      else pass.

End LFSUtils.

(** ** [task/alert_io_task.py] *)

Module AlertIOTask.
Import Stdlib.Strings.Ascii.

(** [s.replace(c, '')] for a single character [c] *)
Fixpoint remove_char (c : Ascii.ascii) (s : string) : string :=
  match s with
  | EmptyString => EmptyString
  | String a s' =>
      if Ascii.eqb a c then remove_char c s' else String a (remove_char c s')
  end.

(** [s.split(sep)] for a single character [sep] *)
Fixpoint split_char (sep : Ascii.ascii) (s : string) : list string :=
  match s with
  | EmptyString => [EmptyString]
  | String a s' =>
      if Ascii.eqb a sep then EmptyString :: split_char sep s'
      else match split_char sep s' with
           | head :: tail => String a head :: tail
           | [] => [String a EmptyString]
           end
  end.

(** [sep.join(l)] *)
Fixpoint join (sep : string) (l : list string) : string :=
  match l with
  | [] => EmptyString
  | [x] => x
  | x :: rest => x +:+ sep +:+ join sep rest
  end.

(** The fields that lines 66-70 of [__init__] set for the mail. *)
Record t : Type := {
  mail_server : string;
  mail_sender : string;
  mail_receiver : string;
  mail_receiver_list : list string
}.

Definition mail_settings (mail_server mail_sender mail_receiver : string) : t :=
  {| mail_server := mail_server;
     mail_sender := mail_sender;
     mail_receiver := mail_receiver;
     mail_receiver_list := split_char ","%char (remove_char " "%char mail_receiver) |}.

(** What [_send_mail] hands to the SMTP connection. *)
Record mail : Type := {
  via : string;
  envelope_from : string;
  envelope_to : list string;
  header_subject : string;
  header_from : string;
  header_to : string;
  text : string
}.

(** Lines 182-205; [args] is the one argument of the call, [None] for
    Python's [None]. *)
Definition _send_mail (self : t) (args : option (list string)) : outcome mail :=
  match args with
  | None => Raise (RuntimeError "Passed argument for send mail is not set!")
  | Some [subject; body] =>
      Ok {| via := mail_server self;
            envelope_from := mail_sender self;
            envelope_to := mail_receiver_list self;
            header_subject := subject;
            header_from := mail_sender self;
            header_to := join ", " (mail_receiver_list self);
            text := body |}
  | Some _ =>
      Raise (RuntimeError
               "Passed argument for send mail has invalid number of arguments!")
  end.

(** Lines 108-110: the timer is given [[(mail_subject, mail_text)]] as the
    argument list, so it calls [_send_mail] with the pair. *)
Definition timer_call (self : t) (mail_subject mail_text : string) : outcome mail :=
  _send_mail self (Some [mail_subject; mail_text]).

(** How often the character [c] stands in [s]. *)
Fixpoint count_char (c : Ascii.ascii) (s : string) : nat :=
  match s with
  | EmptyString => O
  | String a s' => ((if Ascii.eqb a c then 1 else 0) + count_char c s')%nat
  end.

End AlertIOTask.

(** ** Concrete runs *)

Module Scenario.
Import Master.

(** A codec for the runs below: the type, the sender and, for
    TASK_FINISHED, the tid, each a fixed word. *)
Definition create (raw : string) : outcome recv_message :=
  if String.eqb raw "REQ c1" then
    Ok {| type := TASK_REQUEST; sender := Some "c1"; msg_tid := None |}
  else if String.eqb raw "REQ c2" then
    Ok {| type := TASK_REQUEST; sender := Some "c2"; msg_tid := None |}
  else if String.eqb raw "FIN c1 T1" then
    Ok {| type := TASK_FINISHED; sender := Some "c1"; msg_tid := Some "T1" |}
  else if String.eqb raw "FIN c2 T1" then
    Ok {| type := TASK_FINISHED; sender := Some "c2"; msg_tid := Some "T1" |}
  else if String.eqb raw "HB c1" then
    Ok {| type := HEARTBEAT; sender := Some "c1"; msg_tid := None |}
  else Raise (MessageError raw).

(** controller_timeout 10 s, task_resend_timeout 30 s, 100 errors. *)
Definition cyclone (cs : CriticalSection_class) : deployment :=
  {| controller_timeout := 10;
     task_resend_timeout := 30;
     max_error_count := 100;
     MessageFactory_create := create;
     CriticalSection := cs |}.

(** The deployment with the class of [ctrl/critical_section.py]. *)
Definition as_shipped : deployment := cyclone CriticalSection.class.


(** A turn at second [t] in which [data] is received, the lock is
    acquired and the generator is alive or not. *)
Definition at_second (t : Z) (data : option string) (alive : bool) : turn :=
  {| generated := [];
     time_loop := t;
     signals := [];
     recv_string := Ok data;
     time_recv := t;
     lock_acquire := true;
     generator_alive := alive;
     time_handle := t |}.

Definition T1 : Task := {| tid := "T1"; body := "probe" |}.

Definition queued (tasks : list Task) (s : master_state) : master_state :=
  set_task_queue tasks s.

(** T1 was assigned to c1 at second 100, and c1 was seen then. *)
Definition T1_assigned_to_c1 : master_state :=
  set_controller_heartbeat_dict [("c1", 100)]
    (set_task_status_dict
       {[ "T1" := {| item_tid := "T1"; state := assigned;
                     controller := "c1"; timestamp := 100 |} ]}
       (started 5)).

(** Distribution is off and two controllers were last seen at second 0. *)
Definition draining : master_state :=
  set_TASK_DISTRIBUTION false
    (set_controller_heartbeat_dict [("c1", 0); ("c2", 0)] (started 5)).

(** A slot in which the name "LONGER-T" was stored before. *)
Definition used_slot : WorkerStateTableItem.t :=
  {| WorkerStateTableItem._state := 1;
     WorkerStateTableItem._tid :=
       [76; 79; 78; 71; 69; 82; 45; 84] ++ replicate 56 0;
     WorkerStateTableItem._timestamp := 7 |}.

Definition T9 : Worker.Task :=
  {| Worker.tid := [84; 57];
     Worker.execute := Raise (TaskExecuteError "write failed") |}.

End Scenario.

(** ** More concrete runs *)

Module Cases.
Import Master.

(** The codec of [Scenario], and an ACKNOWLEDGE that c1 sends by mistake. *)
Definition create (raw : string) : outcome recv_message :=
  if String.eqb raw "ACK c1" then
    Ok {| type := ACKNOWLEDGE; sender := Some "c1"; msg_tid := None |}
  else Scenario.create raw.

Definition with_confused_peer : deployment :=
  {| controller_timeout := 10;
     task_resend_timeout := 30;
     max_error_count := 100;
     MessageFactory_create := create;
     CriticalSection := CriticalSection.class |}.

(** A master that gives up at the second error. *)
Definition impatient : deployment :=
  {| controller_timeout := 10;
     task_resend_timeout := 30;
     max_error_count := 2;
     MessageFactory_create := Scenario.create;
     CriticalSection := CriticalSection.class |}.


(** A task with the tid "T1" that runs through. *)
Definition T1 : Worker.Task := {| Worker.tid := [84; 49]; Worker.execute := Ok tt |}.

(** A task whose tid has 65 characters. *)
Definition T_wide : Worker.Task :=
  {| Worker.tid := replicate 65 65; Worker.execute := Ok tt |}.

(** A task during which the process is interrupted. *)
Definition T_interrupted : Worker.Task :=
  {| Worker.tid := [84; 50]; Worker.execute := Raise KeyboardInterrupt |}.

Definition pops (task : Worker.Task) (t : Z) (sigusr1 : bool) : Worker.turn :=
  {| Worker.popped := task;
     Worker.time_executing := t;
     Worker.time_ready := t + 1;
     Worker.sigusr1 := sigusr1 |}.

(** A block that counts how often it ran. *)
Definition count_up : SE (Lock.t * nat) unit :=
  fun s => (Ok tt, (s.1, S s.2)).

(** A socket on which "REQ c1" arrives at tick 3 and nothing else. *)
Definition one_arrival : nat -> option string :=
  fun n => if (n =? 3)%nat then Some "REQ c1" else None.

(** A configuration file of a controller with [workers] as its
    [worker_count]. *)
Definition controller_conf (workers : Z) : ControllerConfigFileReader.config_file :=
  {| ControllerConfigFileReader.isfile := true;
     ControllerConfigFileReader.read := None;
     ControllerConfigFileReader.get := fun section option =>
       if String.eqb section "control" && String.eqb option "pid_file"
       then inr "/run/cyclone.pid"
       else if String.eqb section "comm" && String.eqb option "target"
       then inr "master.example.org"
       else if String.eqb section "log" && String.eqb option "filename"
       then inr "/var/log/cyclone.log"
       else inl "No option";
     ControllerConfigFileReader.getint := fun section option =>
       if String.eqb section "control"
          && String.eqb option "request_retry_wait_duration"
       then inr 2
       else if String.eqb section "control"
               && String.eqb option "max_num_request_retries"
       then inr 3
       else if String.eqb section "comm" && String.eqb option "port"
       then inr 5555
       else if String.eqb section "comm" && String.eqb option "poll_timeout"
       then inr 10
       else if String.eqb section "processing" && String.eqb option "worker_count"
       then inr workers
       else inl "No option" |}.

End Cases.

(** * Properties *)

(** ** The worker state table *)

Section WorkerStateTable.

Import WorkerStateTableItem.

Lemma encode_ascii (s : str) : is_ascii s = true -> str_encode s = Ok s.
Proof.
  induction s as [|c s IH]; simpl; [reflexivity|].
  intros H. apply andb_prop in H as [Hc Hs].
  apply andb_prop in Hc as [H0 H1].
  apply Z.leb_le in H0. apply Z.ltb_lt in H1.
  unfold utf8_encode_char.
  destruct (Z.ltb_spec c 0); [lia|].
  destruct (Z.ltb_spec c 0x80); [|lia].
  rewrite (IH Hs). reflexivity.
Qed.

Lemma decode_ascii (s : bytes) : is_ascii s = true -> bytes_decode s = Ok s.
Proof.
  induction s as [|c s IH]; [reflexivity|].
  intros H. simpl in H. apply andb_prop in H as [Hc Hs].
  cbn [bytes_decode]. rewrite Hc, (IH Hs). reflexivity.
Qed.

Lemma is_ascii_app (a b : str) :
  is_ascii (a ++ b) = is_ascii a && is_ascii b.
Proof. unfold is_ascii. apply forallb_app. Qed.

(** Reading stops at the terminator that the assignment wrote. *)
Lemma get_value_terminated (v rest : bytes) :
  0 ∉ v -> char_array_get_value (v ++ 0 :: rest) = v.
Proof.
  induction v as [|b v IH]; intros Hv; [reflexivity|].
  apply not_elem_of_cons in Hv as [Hb Hv]. simpl.
  destruct (Z.eqb_spec b 0); [congruence|]. by rewrite IH.
Qed.

Lemma get_value_full (v : bytes) : 0 ∉ v -> char_array_get_value v = v.
Proof.
  induction v as [|b v IH]; intros Hv; [reflexivity|].
  apply not_elem_of_cons in Hv as [Hb Hv]. simpl.
  destruct (Z.eqb_spec b 0); [congruence|]. by rewrite IH.
Qed.

Lemma set_value_length (buf v buf' : bytes) :
  char_array_set_value buf v = Ok buf' -> length buf' = length buf.
Proof.
  unfold char_array_set_value.
  destruct (Nat.ltb_spec (length buf) (length v)); [discriminate|].
  destruct (Nat.ltb_spec (length v) (length buf)); intros [= <-].
  - rewrite length_app. simpl. rewrite length_drop. lia.
  - lia.
Qed.

Lemma set_value_get_value (buf v : bytes) :
  (length v <= length buf)%nat -> 0 ∉ v ->
  exists buf', char_array_set_value buf v = Ok buf'
               /\ char_array_get_value buf' = v.
Proof.
  intros Hlen Hv. unfold char_array_set_value.
  destruct (Nat.ltb_spec (length buf) (length v)); [lia|].
  destruct (Nat.ltb_spec (length v) (length buf)).
  - eexists; split; [reflexivity|]. by apply get_value_terminated.
  - eexists; split; [reflexivity|]. by apply get_value_full.
Qed.

(** Storing a name that fits never raises and keeps the slot's size. *)
Lemma set_tid_fits (item : t) (task_name : str) :
  allocated item -> fits task_name = true ->
  exists item', set_tid task_name item = Ok item'
                /\ allocated item'
                /\ _state item' = _state item
                /\ _timestamp item' = _timestamp item.
Proof.
  unfold allocated, fits, set_tid. intros Hbuf Hfit.
  destruct (str_encode task_name) as [v|]; [|discriminate].
  apply Nat.leb_le in Hfit.
  destruct (char_array_set_value (_tid item) v) as [buf'|e] eqn:Hset.
  - eexists; repeat split; simpl. apply set_value_length in Hset. congruence.
  - unfold char_array_set_value in Hset.
    destruct (Nat.ltb_spec (length (_tid item)) (length v)); [lia|].
    destruct (length v <? length (_tid item))%nat; discriminate.
Qed.

(** Storing the empty name leaves a slot that reads as the empty name. *)
Lemma set_tid_empty (item : t) :
  allocated item ->
  exists item', set_tid [] item = Ok item'
                /\ allocated item'
                /\ get_tid item' = Ok []
                /\ _state item' = _state item
                /\ _timestamp item' = _timestamp item.
Proof.
  unfold allocated, set_tid, get_tid. intros Hbuf. simpl.
  destruct (_tid item) as [|b buf] eqn:E; [discriminate|].
  unfold char_array_set_value. simpl.
  eexists; repeat split; simpl. rewrite drop_0. simpl in Hbuf. simpl. lia.
Qed.

(** C10.  For every ASCII name [tid] of at most 64 bytes without a NUL,
    [set_tid tid] followed by [get_tid] gives back exactly [tid], whatever
    the 64-byte slot held before. *)
Theorem set_tid_get_tid (item : t) (tid : str) :
  allocated item ->
  is_ascii tid = true -> (length tid <= 64)%nat -> 0 ∉ tid ->
  exists item', set_tid tid item = Ok item' /\ get_tid item' = Ok tid.
Proof.
  unfold allocated, set_tid, get_tid. intros Hbuf Hascii Hlen Hnul.
  rewrite (encode_ascii _ Hascii).
  destruct (set_value_get_value (_tid item) tid) as (buf' & -> & Hget);
    [lia|assumption|].
  eexists; split; [reflexivity|]. simpl.
  rewrite Hget. by apply decode_ascii.
Qed.

End WorkerStateTable.

(** ** The worker loop *)

Section WorkerLoop.

Import Worker.


End WorkerLoop.

(** ** The dispatch loop of the master *)

Section Dispatch.

Import Master.

Ltac exec :=
  unfold iteration, try_block, acquire_task, decide_assignment, task_finished,
    all_down_then_stop, check_all_controller_down, except_clause,
    stop_task_distribution, send_string, result_queue_push, getattr, emit,
    try_except, try_finally, modify, gets, lift, raise, pass,
    mbind, SE_bind, mret, SE_ret.

Ltac setters :=
  unfold set_TASK_DISTRIBUTION, set_run_flag, set_error_count,
    set_controller_heartbeat_dict, set_task_status_dict,
    set_controller_wait_duration, set_task_queue, set_result_queue, set_trace
    in *.

Lemma replies_app (a b : list event) : replies (a ++ b) = replies a ++ replies b.
Proof. unfold replies. apply omap_app. Qed.

(** Signals only log and clear the flag. *)
Lemma deliver_effect (sigs : list signum) (s : master_state) :
  exists logs,
    deliver sigs s =
      (Ok tt,
       set_trace (trace s ++ logs)
         (set_TASK_DISTRIBUTION
            (match sigs with [] => TASK_DISTRIBUTION s | _ => false end) s))
    /\ replies logs = [].
Proof.
  revert s. induction sigs as [|sig sigs IH]; intros s.
  - exists []. destruct s; simpl. rewrite app_nil_r. done.
  - pose (line := Log INFO
        match sig with
        | SIGHUP => "Master retrieved hang-up signal."
        | SIGINT => "Master retrieved interrupt program signal."
        | SIGTERM => "Master Retrieved signal to terminate."
        end).
    destruct (IH (set_trace (trace s ++ [line]) (set_TASK_DISTRIBUTION false s)))
      as (logs & E & R).
    exists (line :: logs). split; [|exact R]. subst line.
    destruct s as [td rf ec hb tsd cwd tq rq tr].
    cbn [deliver]. unfold signal_handler. exec.
    setters.
    destruct sig, td; cbn in E |- *; rewrite E; destruct sigs; cbn;
      rewrite <- ?app_assoc; reflexivity.
Qed.


(** *** The heartbeat dictionary *)

Lemma dict_keys_app (a b : list (string * Z)) :
  dict_keys (a ++ b) = dict_keys a ++ dict_keys b.
Proof. unfold dict_keys. apply map_app. Qed.

Lemma dict_get_fresh (pre post : list (string * Z)) (k : string) (v : Z) :
  k ∉ dict_keys pre -> dict_get k (pre ++ (k, v) :: post) = Some v.
Proof.
  induction pre as [|[k' v'] pre IH]; cbn; intros Hk.
  - by rewrite String.eqb_refl.
  - apply not_elem_of_cons in Hk as [Hne Hk].
    destruct (String.eqb_spec k k'); [done|]. by apply IH.
Qed.

Lemma dict_pop_fresh (pre post : list (string * Z)) (k : string) (v : Z) :
  k ∉ dict_keys pre -> dict_pop k (pre ++ (k, v) :: post) = pre ++ post.
Proof.
  induction pre as [|[k' v'] pre IH]; cbn; intros Hk.
  - by rewrite String.eqb_refl.
  - apply not_elem_of_cons in Hk as [Hne Hk].
    destruct (String.eqb_spec k k'); [done|]. by rewrite IH.
Qed.

Lemma dict_pop_absent (d : list (string * Z)) (k : string) :
  k ∉ dict_keys d -> dict_pop k d = d.
Proof.
  induction d as [|[k' v'] d IH]; cbn; intros Hk; [done|].
  apply not_elem_of_cons in Hk as [Hne Hk].
  destruct (String.eqb_spec k k'); [done|]. by rewrite IH.
Qed.


Lemma dict_pop_keys (d : list (string * Z)) (k k' : string) :
  k' ∈ dict_keys (dict_pop k d) -> k' ∈ dict_keys d.
Proof.
  induction d as [|[k0 v0] d IH]; cbn; [done|].
  destruct (String.eqb_spec k k0); cbn; rewrite !elem_of_cons; intuition.
Qed.

Lemma dict_pop_NoDup (d : list (string * Z)) (k : string) :
  NoDup (dict_keys d) -> NoDup (dict_keys (dict_pop k d)).
Proof.
  induction d as [|[k0 v0] d IH]; cbn; [done|].
  intros [Hk0 Hd]%NoDup_cons.
  destruct (String.eqb_spec k k0); [done|]. cbn.
  apply NoDup_cons. split; [|by apply IH].
  intros Hin. by apply Hk0, (dict_pop_keys d k).
Qed.

Lemma dict_set_keys (d : list (string * Z)) (k k' : string) (v : Z) :
  k' ∈ dict_keys (dict_set k v d) -> k' = k \/ k' ∈ dict_keys d.
Proof.
  induction d as [|[k0 v0] d IH]; cbn.
  - rewrite elem_of_cons. intuition.
  - destruct (String.eqb_spec k k0); cbn; rewrite !elem_of_cons; intuition.
Qed.

Lemma dict_set_NoDup (d : list (string * Z)) (k : string) (v : Z) :
  NoDup (dict_keys d) -> NoDup (dict_keys (dict_set k v d)).
Proof.
  induction d as [|[k0 v0] d IH]; cbn.
  - intros _. apply NoDup_singleton.
  - intros [Hk0 Hd]%NoDup_cons.
    destruct (String.eqb_spec k k0) as [->|Hne]; cbn.
    + by apply NoDup_cons.
    + apply NoDup_cons. split; [|by apply IH].
      intros [->|Hin]%dict_set_keys; done.
Qed.

(** Setting a key and popping it again is popping it. *)
Lemma dict_pop_set (d : list (string * Z)) (k : string) (v : Z) :
  dict_pop k (dict_set k v d) = dict_pop k d.
Proof.
  induction d as [|[k0 v0] d IH]; cbn.
  - by rewrite String.eqb_refl.
  - destruct (String.eqb_spec k k0) as [->|Hne]; cbn.
    + by rewrite String.eqb_refl.
    + destruct (String.eqb_spec k k0); [done|]. by rewrite IH.
Qed.


(** *** The pruning loop *)

(** The pruning loop touches the heartbeat dictionary only, and keeps its
    keys distinct. *)
Lemma prune_body_frame (w : deployment) (now : Z) (k : string) (s : master_state) :
  exists r hb',
    prune_body w now k s = (r, set_controller_heartbeat_dict hb' s)
    /\ (NoDup (dict_keys (controller_heartbeat_dict s)) -> NoDup (dict_keys hb')).
Proof.
  destruct s as [td rf ec hb tsd cwd tq rq tr].
  unfold prune_body. exec. setters. cbn.
  destruct (dict_get k hb) as [seen|]; cbn; [|eexists _, hb; done].
  destruct (seen + controller_timeout w <=? now); cbn.
  - eexists _, _; split; [reflexivity|]. apply dict_pop_NoDup.
  - eexists _, hb; done.
Qed.

Lemma for_keys_prune_frame (w : deployment) (now : Z) (keys : list string) (n : nat)
    (s : master_state) :
  exists r hb',
    for_keys keys n (prune_body w now) s = (r, set_controller_heartbeat_dict hb' s)
    /\ (NoDup (dict_keys (controller_heartbeat_dict s)) -> NoDup (dict_keys hb')).
Proof.
  revert s. induction keys as [|k keys IH]; intros s.
  - destruct s as [td rf ec hb tsd cwd tq rq tr].
    cbn [for_keys]. exec. setters. cbn.
    destruct (length hb =? n)%nat; eexists _, hb; done.
  - destruct (prune_body_frame w now k s) as (r1 & hb1 & E1 & N1).
    destruct (IH (set_controller_heartbeat_dict hb1 s)) as (r2 & hb2 & E2 & N2).
    destruct s as [td rf ec hb tsd cwd tq rq tr].
    cbn [for_keys]. exec. setters. cbn in *.
    destruct (length hb =? n)%nat; cbn; [|eexists _, hb; done].
    rewrite E1. destruct r1; [|eexists _, _; done].
    rewrite E2. eexists _, _; split; [reflexivity|]. auto.
Qed.

(** Once the size has changed, the next step of the iteration raises. *)
Lemma for_keys_size_changed (keys : list string) (n : nat)
    (body : string -> SE master_state unit) (s : master_state) :
  length (controller_heartbeat_dict s) <> n ->
  for_keys keys n body s
  = (Raise (RuntimeError "dictionary changed size during iteration"), s).
Proof.
  intros Hn. destruct keys; cbn [for_keys]; exec; cbn;
    destruct (Nat.eqb_spec (length (controller_heartbeat_dict s)) n); done.
Qed.

Lemma prune_body_at (w : deployment) (now : Z) (pre post : list (string * Z))
    (k : string) (seen : Z) (s : master_state) :
  controller_heartbeat_dict s = pre ++ (k, seen) :: post ->
  k ∉ dict_keys pre ->
  prune_body w now k s =
    (Ok tt, if expired w now seen
            then set_controller_heartbeat_dict (pre ++ post) s else s).
Proof.
  intros Hs Hk. unfold prune_body, expired. exec. cbn.
  rewrite Hs, (dict_get_fresh _ _ _ _ Hk).
  destruct (seen + controller_timeout w <=? now); cbn; [|done].
  by rewrite Hs, (dict_pop_fresh _ _ _ _ Hk).
Qed.

(** What the loop of lines 351-357 does: it removes the first expired entry
    and then raises; without an expired entry it changes nothing. *)
Lemma for_keys_prune (w : deployment) (now : Z) (post pre : list (string * Z))
    (s : master_state) :
  controller_heartbeat_dict s = pre ++ post ->
  NoDup (dict_keys (pre ++ post)) ->
  for_keys (dict_keys post) (length (pre ++ post)) (prune_body w now) s =
    match pop_first_expired w now post with
    | Some post' =>
        (Raise (RuntimeError "dictionary changed size during iteration"),
         set_controller_heartbeat_dict (pre ++ post') s)
    | None => (Ok tt, s)
    end.
Proof.
  revert pre s. induction post as [|[k seen] post IH]; intros pre s Hs Hnd.
  - cbn [dict_keys map for_keys]. exec. cbn. rewrite Hs, Nat.eqb_refl. done.
  - assert (k ∉ dict_keys pre) as Hk.
    { rewrite dict_keys_app in Hnd. apply NoDup_app in Hnd as (_ & Hd & _).
      intros Hin. apply (Hd k Hin). cbn. left. }
    cbn [dict_keys map for_keys pop_first_expired]. fold (dict_keys post).
    exec. cbn.
    rewrite Hs, Nat.eqb_refl. cbn. rewrite (prune_body_at w now pre post k seen s Hs Hk).
    destruct (expired w now seen); cbn.
    + rewrite for_keys_size_changed; [done|].
      destruct s; cbn. rewrite !length_app. cbn. lia.
    + specialize (IH (pre ++ [(k, seen)]) s).
      rewrite <- !app_assoc in IH. cbn in IH. rewrite (IH Hs Hnd).
      destruct (pop_first_expired w now post); cbn; [|done].
      by rewrite <- app_assoc.
Qed.

Ltac split_cases :=
  repeat (cbn;
    match goal with
    | |- context [for_keys ?ks ?n (prune_body ?w ?now) ?st] =>
        let r := fresh "r" in let hb' := fresh "hb" in let E := fresh "E" in
        destruct (for_keys_prune_frame w now ks n st) as (r & hb' & E & _);
        setters; cbn in E; rewrite E; clear E
    | |- context [match ?x with _ => _ end] =>
        lazymatch x with
        | context [match _ with _ => _ end] => fail
        | _ => destruct x eqn:?
        end
    end).

Ltac leaf Hlogs :=
  unfold turn_summary; cbn;
  rewrite ?replies_app, ?Hlogs; unfold replies; cbn;
  rewrite <- ?app_assoc; cbn;
  eexists; split; [reflexivity|];
  split; [cbn; lia|];
  split; intros; simplify_eq/=; auto.

Lemma turn_replies (w : deployment) (u : turn) (s : master_state) :
  turn_summary s (iteration w u s).2.
Proof.
  destruct (deliver_effect (signals u) (set_task_queue (task_queue s ++ generated u) s))
    as (logs & Hdel & Hlogs).
  destruct s as [td rf ec hb tsd cwd tq rq tr].
  exec. setters. cbn in *. rewrite Hdel. clear Hdel.
  split_cases.
  all: leaf Hlogs.
Qed.

(** X1.  No turn sends more than one reply. *)
Lemma turn_sends_at_most_one_reply (w : deployment) (u : turn) (s : master_state) :
  exists l,
    replies (trace (iteration w u s).2) = replies (trace s) ++ l
    /\ (length l <= 1)%nat.
Proof. destruct (turn_replies w u s) as (l & E & H & _). by exists l. Qed.

(** Every turn keeps the keys of the heartbeat dictionary distinct. *)
Lemma heartbeat_keys_distinct (w : deployment) (u : turn) (s : master_state) :
  NoDup (dict_keys (controller_heartbeat_dict s)) ->
  NoDup (dict_keys (controller_heartbeat_dict (iteration w u s).2)).
Proof.
  destruct (deliver_effect (signals u) (set_task_queue (task_queue s ++ generated u) s))
    as (logs & Hdel & _).
  destruct s as [td rf ec hb tsd cwd tq rq tr].
  exec. setters. cbn in *. rewrite Hdel. clear Hdel. intros Hnd.
  repeat (cbn;
    match goal with
    | |- context [for_keys ?ks ?n (prune_body ?w ?now) ?st] =>
        let r := fresh "r" in let hb' := fresh "hb" in
        let E := fresh "E" in let N := fresh "N" in
        destruct (for_keys_prune_frame w now ks n st) as (r & hb' & E & N);
        setters; cbn in E, N; rewrite E; clear E; specialize (N Hnd)
    | |- context [match ?x with _ => _ end] =>
        lazymatch x with
        | context [match _ with _ => _ end] => fail
        | _ => destruct x eqn:?
        end
    end).
  all: cbn; auto using dict_set_NoDup, dict_pop_NoDup.
Qed.

Lemma while_run_flag_cons (w : deployment) (u : turn) (turns : list turn)
    (s : master_state) :
  while_run_flag w (u :: turns) s =
    if run_flag s then
      match iteration w u s with
      | (Ok _, s1) => while_run_flag w turns s1
      | (Raise e, s1) => (Raise e, s1)
      end
    else (Ok tt, s).
Proof.
  cbn [while_run_flag]. unfold mbind, SE_bind, gets, pass, mret, SE_ret.
  destruct (run_flag s); [|done].
  by destruct (iteration w u s) as [[[]|e] s1].
Qed.



(** *** The protocol of the dispatch loop *)



(** C2.  A TASK_FINISHED received while distribution is on: from the
    recorded controller it sets the record to FINISHED at [now], pushes the
    tid onto the result queue and is answered ACKNOWLEDGE; from another
    controller it is logged as a warning and answered ACKNOWLEDGE, and no
    record changes; for a tid without a record the error is counted and
    task distribution stops. *)
Theorem task_finished_handled
    (w : deployment) (u : turn) (s : master_state) (m : recv_message)
    (c tid : string) (now : Z) :
  TASK_DISTRIBUTION s = true ->
  signals u = [] ->
  arrives w u m c ->
  type m = TASK_FINISHED ->
  msg_tid m = Some tid ->
  time_handle u = now ->
  exists s',
    iteration w u s = (Ok tt, s')
    /\ (forall rec,
          task_status_dict s !! tid = Some rec -> c = controller rec ->
          task_status_dict s' =
            <[tid := {| item_tid := item_tid rec; state := finished;
                        controller := controller rec; timestamp := now |}]>
              (task_status_dict s)
          /\ result_queue s' = result_queue s ++ [tid]
          /\ replies (trace s') = replies (trace s) ++ [Acknowledge])
    /\ (forall rec,
          task_status_dict s !! tid = Some rec -> c <> controller rec ->
          Log WARNING "Retrieved task finished from different controller!" ∈ trace s'
          /\ replies (trace s') = replies (trace s) ++ [Acknowledge]
          /\ task_status_dict s' = task_status_dict s
          /\ result_queue s' = result_queue s)
    /\ (task_status_dict s !! tid = None ->
        error_count s' = error_count s + 1
        /\ TASK_DISTRIBUTION s' = false
        /\ LogException (RuntimeError "Inconsistency detected on task finished!")
             ∈ trace s'
        /\ replies (trace s') = replies (trace s)
        /\ task_status_dict s' = task_status_dict s
        /\ result_queue s' = result_queue s).
Proof.
  intros Hon Hq (raw & Hraw & Hrecv & Hdec & Hsender) Htype Htid Hhandle.
  destruct s as [td rf ec hb tsd cwd tq rq tr]; cbn in *. subst td.
  destruct raw as [|ch raw]; [done|].
  exec. setters. cbn. rewrite Hq. cbn. rewrite Hrecv. cbn. rewrite Hdec. cbn.
  rewrite Hsender, Htype. cbn. rewrite Htid. cbn. rewrite Hhandle.
  destruct (tsd !! tid) as [rec|] eqn:Hrec; cbn.
  - destruct (String.eqb_spec c (controller rec)) as [Heq|Hne]; cbn.
    + eexists; split; [reflexivity|]. cbn. split; [|split; [|done]].
      * intros ? [= <-] _. rewrite !replies_app. cbn. by rewrite !app_nil_r.
      * intros ? [= <-] ?. done.
    + eexists; split; [reflexivity|]. cbn. split; [|split; [|done]].
      * intros ? [= <-] ?. done.
      * intros ? [= <-] _. rewrite !replies_app. cbn. rewrite !app_nil_r.
        split; [|done]. rewrite !elem_of_app, !list_elem_of_singleton. auto.
  - destruct (ec + 1 =? max_error_count w); cbn.
    all: eexists; split; [reflexivity|]; cbn.
    all: split; [done|]; split; [done|]; intros _.
    all: rewrite !replies_app; cbn; rewrite !app_nil_r.
    all: repeat split; rewrite ?elem_of_app, ?list_elem_of_singleton; auto.
Qed.

(** C3, on the code: a message that fails to decode is not answered.  The
    error is counted and logged and task distribution stops; no reply is
    sent in that turn. *)
Theorem malformed_message_gets_no_reply
    (w : deployment) (u : turn) (s : master_state) (raw : string) (err : exception) :
  raw <> "" ->
  recv_string u = Ok (Some raw) ->
  MessageFactory_create w raw = Raise err ->
  is_Exception err = true ->
  exists s',
    iteration w u s = (Ok tt, s')
    /\ replies (trace s') = replies (trace s)
    /\ error_count s' = error_count s + 1
    /\ TASK_DISTRIBUTION s' = false
    /\ LogException err ∈ trace s'
    /\ run_flag s' = (if error_count s + 1 =? max_error_count w
                      then false else run_flag s).
Proof.
  intros Hraw Hrecv Hdec Hexc.
  destruct (deliver_effect (signals u) (set_task_queue (task_queue s ++ generated u) s))
    as (logs & Hdel & Hlogs).
  destruct s as [td rf ec hb tsd cwd tq rq tr]; cbn in *.
  destruct raw as [|ch raw]; [done|].
  exec. setters. cbn in *. rewrite Hdel. cbn. rewrite Hrecv. cbn. rewrite Hdec. cbn.
  rewrite Hexc.
  destruct (match signals u with [] => td | _ => false end); cbn.
  all: destruct (ec + 1 =? max_error_count w); cbn.
  all: eexists; split; [reflexivity|]; cbn.
  all: rewrite !replies_app, Hlogs; cbn; rewrite !app_nil_r.
  all: repeat split; rewrite ?elem_of_app, ?list_elem_of_singleton; auto.
Qed.



(** C6, on the code: in a turn that times out while distribution is off,
    the loop over the keys removes the first expired entry and then raises
    "dictionary changed size during iteration".  Later expired entries
    stay, the error is counted, and the test for an empty dictionary is not
    reached in that turn. *)
Theorem pruning_raises_after_first_removal
    (w : deployment) (u : turn) (s : master_state) (d' : list (string * Z)) :
  TASK_DISTRIBUTION s = false ->
  times_out u ->
  NoDup (dict_keys (controller_heartbeat_dict s)) ->
  pop_first_expired w (time_loop u) (controller_heartbeat_dict s) = Some d' ->
  exists s',
    iteration w u s = (Ok tt, s')
    /\ controller_heartbeat_dict s' = d'
    /\ LogException (RuntimeError "dictionary changed size during iteration")
         ∈ trace s'
    /\ error_count s' = error_count s + 1
    /\ run_flag s' = (if error_count s + 1 =? max_error_count w
                      then false else run_flag s).
Proof.
  intros Hoff Hout Hnd Hpop.
  destruct (deliver_effect (signals u) (set_task_queue (task_queue s ++ generated u) s))
    as (logs & Hdel & Hlogs).
  destruct s as [td rf ec hb tsd cwd tq rq tr]; cbn in *. subst td.
  exec. setters. cbn in *. rewrite Hdel. cbn.
  assert (match signals u with [] => false | _ => false end = false) as ->
    by (by destruct (signals u)).
  destruct Hout as [-> | ->]; cbn.
  all: match goal with |- context [for_keys _ _ _ ?st] =>
         pose proof (for_keys_prune w (time_loop u) hb [] st eq_refl Hnd) as E end.
  all: cbn in E; fold (dict_keys hb); rewrite E, Hpop; cbn.
  all: destruct (ec + 1 =? max_error_count w); cbn.
  all: eexists; split; [reflexivity|]; cbn.
  all: repeat split; rewrite ?elem_of_app, ?list_elem_of_singleton; auto.
Qed.

(** X2.  Without an expired entry the turn prunes nothing and raises nothing,
    and the loop ends when the dictionary is empty. *)
Lemma pruning_without_expired
    (w : deployment) (u : turn) (s : master_state) :
  TASK_DISTRIBUTION s = false ->
  times_out u ->
  NoDup (dict_keys (controller_heartbeat_dict s)) ->
  pop_first_expired w (time_loop u) (controller_heartbeat_dict s) = None ->
  exists s',
    iteration w u s = (Ok tt, s')
    /\ controller_heartbeat_dict s' = controller_heartbeat_dict s
    /\ error_count s' = error_count s
    /\ run_flag s' = match controller_heartbeat_dict s with
                     | [] => false
                     | _ => run_flag s
                     end.
Proof.
  intros Hoff Hout Hnd Hpop.
  destruct (deliver_effect (signals u) (set_task_queue (task_queue s ++ generated u) s))
    as (logs & Hdel & Hlogs).
  destruct s as [td rf ec hb tsd cwd tq rq tr]; cbn in *. subst td.
  exec. setters. cbn in *. rewrite Hdel. cbn.
  assert (match signals u with [] => false | _ => false end = false) as ->
    by (by destruct (signals u)).
  destruct Hout as [-> | ->]; cbn.
  all: match goal with |- context [for_keys _ _ _ ?st] =>
         pose proof (for_keys_prune w (time_loop u) hb [] st eq_refl Hnd) as E end.
  all: cbn in E; fold (dict_keys hb); rewrite E, Hpop; cbn.
  all: destruct hb; cbn; eexists; split; reflexivity || done.
Qed.


(** C7, on the code: with the class of [ctrl/critical_section.py] the
    success test of a TASK_REQUEST raises [AttributeError].  The queue is
    not touched and no reply is sent; the error is counted and distribution
    stops. *)
Theorem success_test_raises
    (w : deployment) (u : turn) (s : master_state) (m : recv_message) (c : string) :
  CriticalSection w = CriticalSection.class ->
  TASK_DISTRIBUTION s = true ->
  signals u = [] ->
  arrives w u m c ->
  type m = TASK_REQUEST ->
  exists s',
    iteration w u s = (Ok tt, s')
    /\ LogException (AttributeError "is_locked") ∈ trace s'
    /\ task_queue s' = task_queue s ++ generated u
    /\ replies (trace s') = replies (trace s)
    /\ error_count s' = error_count s + 1
    /\ TASK_DISTRIBUTION s' = false.
Proof.
  intros Hcls Hon Hq (raw & Hraw & Hrecv & Hdec & Hsender) Htype.
  destruct s as [td rf ec hb tsd cwd tq rq tr]; cbn in *. subst td.
  destruct raw as [|ch raw]; [done|].
  exec. setters. cbn. rewrite Hq. cbn. rewrite Hrecv. cbn. rewrite Hdec. cbn.
  rewrite Hsender, Htype. cbn. rewrite Hcls. cbn.
  destruct (ec + 1 =? max_error_count w); cbn.
  all: eexists; split; [reflexivity|]; cbn.
  all: rewrite !replies_app; cbn; rewrite !app_nil_r.
  all: repeat split; rewrite ?elem_of_app, ?list_elem_of_singleton; auto.
Qed.

(** *** The receive of the communication handler *)




(** The receive the specification describes does return absence. *)
Lemma recv_with_poll_timeout_expires (poll_timeout now ticks : nat) :
  (poll_timeout <= ticks)%nat ->
  MasterCommHandler.recv_with_poll_timeout poll_timeout MasterCommHandler.silent
    now ticks
  = MasterCommHandler.Returned None.
Proof.
  revert now ticks. induction poll_timeout as [|p IH]; intros now ticks Hle; cbn.
  - done.
  - destruct ticks as [|ticks]; [lia|]. apply IH. lia.
Qed.

End Dispatch.

(** ** More of the dispatch loop *)

Section DispatchMore.
Import Master Bookkeeping.

Ltac run_turn :=
  unfold iteration, try_block, acquire_task, decide_assignment, task_finished,
    all_down_then_stop, check_all_controller_down, except_clause,
    stop_task_distribution, send_string, result_queue_push, getattr, emit,
    try_except, try_finally, modify, gets, lift, raise, pass,
    mbind, SE_bind, mret, SE_ret;
  unfold set_TASK_DISTRIBUTION, set_run_flag, set_error_count,
    set_controller_heartbeat_dict, set_task_status_dict,
    set_controller_wait_duration, set_task_queue, set_result_queue, set_trace
    in *.

Ltac branches :=
  repeat (cbn;
    match goal with
    | |- context [for_keys ?ks ?n (prune_body ?w ?now) ?st] =>
        let r := fresh "r" in let hb' := fresh "hb" in let E := fresh "E" in
        destruct (for_keys_prune_frame w now ks n st) as (r & hb' & E & _);
        unfold set_controller_heartbeat_dict in E; cbn in E; rewrite E; clear E
    | |- context [match ?x with _ => _ end] =>
        lazymatch x with
        | context [match _ with _ => _ end] => fail
        | _ => destruct x eqn:?
        end
    end).


Lemma insert_keeps_records (tsd : gmap string TaskStatusItem) (key : string)
    (rec : TaskStatusItem) :
  ((forall k r, tsd !! k = Some r -> item_tid r = k) -> item_tid rec = key) ->
  (forall k, is_Some (tsd !! k) -> is_Some (<[key := rec]> tsd !! k))
  /\ ((forall k r, tsd !! k = Some r -> item_tid r = k) ->
      forall k r, <[key := rec]> tsd !! k = Some r -> item_tid r = k).
Proof.
  intros Hkey. split.
  - intros k Hk. destruct (decide (key = k)) as [->|Hne].
    + rewrite lookup_insert_eq. eauto.
    + by rewrite lookup_insert_ne.
  - intros Hinv k r. destruct (decide (key = k)) as [->|Hne].
    + rewrite lookup_insert_eq. intros [= <-]. by apply Hkey.
    + rewrite lookup_insert_ne by done. apply Hinv.
Qed.

(** X4.  No turn removes a record from [task_status_dict], and every record
    stays filed under its own tid. *)
Theorem task_status_records_kept (w : deployment) (u : turn) (s : master_state) :
  records_kept s (iteration w u s).2.
Proof.
  destruct (deliver_effect (signals u) (set_task_queue (task_queue s ++ generated u) s))
    as (logs & Hdel & Hlogs).
  destruct s as [td rf ec hb tsd cwd tq rq tr].
  run_turn. cbn in *. rewrite Hdel. clear Hdel.
  branches.
  all: unfold records_kept; cbn.
  all: try (split; [intros k Hk; exact Hk | intros Hinv; exact Hinv]).
  all: apply insert_keeps_records; cbn; eauto.
Qed.


(** X5.  A record goes from ASSIGNED to FINISHED only in a turn that
    received TASK_FINISHED for its tid from the controller it names. *)
Theorem finished_only_by_assignee (w : deployment) (u : turn) (s : master_state) :
  finish_attributed w u s (iteration w u s).2.
Proof.
  destruct (deliver_effect (signals u) (set_task_queue (task_queue s ++ generated u) s))
    as (logs & Hdel & Hlogs).
  destruct s as [td rf ec hb tsd cwd tq rq tr].
  run_turn. cbn in *. rewrite Hdel. clear Hdel.
  branches.
  all: unfold finish_attributed; cbn.
  all: intros k rec rec' Hrec Hst Hrec' Hst'.
  all: try (rewrite Hrec in Hrec'; injection Hrec' as <-; congruence).
  all: match type of Hrec' with
       | <[?key := _]> _ !! _ = _ =>
           destruct (decide (key = k)) as [Hk|Hne];
           [ rewrite Hk in Hrec'; rewrite lookup_insert_eq in Hrec';
             injection Hrec' as <-
           | rewrite lookup_insert_ne in Hrec' by done;
             rewrite Hrec in Hrec'; injection Hrec' as <-; congruence ]
       end.
  all: try discriminate.
  match goal with H : (_ =? _)%string = true |- _ => apply String.eqb_eq in H end.
  simplify_eq. eexists _, _. repeat split; eauto.
Qed.


Lemma turn_errors (w : deployment) (u : turn) (s : master_state) :
  errors_counted w s (iteration w u s).2.
Proof.
  destruct (deliver_effect (signals u) (set_task_queue (task_queue s ++ generated u) s))
    as (logs & Hdel & Hlogs).
  destruct s as [td rf ec hb tsd cwd tq rq tr].
  run_turn. cbn in *. rewrite Hdel. clear Hdel.
  branches.
  all: unfold errors_counted; cbn.
  all: repeat match goal with
       | H : (_ =? _) = _ |- _ => rewrite H
       end.
  all: auto.
Qed.

Lemma while_run_flag_stopped (w : deployment) (turns : list turn) (s : master_state) :
  run_flag s = false -> while_run_flag w turns s = (Ok tt, s).
Proof.
  intros Hstop. destruct turns as [|u turns]; [done|].
  by rewrite while_run_flag_cons, Hstop.
Qed.

(** X7.  From the start of the loop on, with a positive error limit, the
    error count never passes the limit, and the loop has stopped once the
    limit is reached. *)
Theorem error_count_bounded (w : deployment) (turns : list turn) (s : master_state) :
  0 < max_error_count w ->
  error_count s < max_error_count w ->
  let s' := (while_run_flag w turns s).2 in
  error_count s <= error_count s' <= max_error_count w
  /\ (error_count s' = max_error_count w -> run_flag s' = false).
Proof.
  intros Hmax. revert s. induction turns as [|u turns IH]; intros s Hlt; cbn zeta.
  - cbn. lia.
  - rewrite while_run_flag_cons.
    destruct (run_flag s) eqn:Hrun; cbn; [|lia].
    pose proof (turn_errors w u s) as Hturn. unfold errors_counted in Hturn.
    destruct (iteration w u s) as [r s1]; cbn in *.
    destruct Hturn as [Hsame | (Hinc & _ & Hstop)].
    + destruct r as [[]|e]; cbn.
      * assert (error_count s1 < max_error_count w) as Hlt1 by lia.
        destruct (IH s1 Hlt1) as [Hb Hs]. split; [lia|exact Hs].
      * lia.
    + destruct (Z.eqb_spec (error_count s1) (max_error_count w)) as [Heq|Hne].
      * destruct r as [[]|e]; cbn.
        -- rewrite (while_run_flag_stopped w turns s1 Hstop). cbn.
           split; [lia|]. intros _. exact Hstop.
        -- split; [lia|]. intros _. exact Hstop.
      * destruct r as [[]|e]; cbn.
        -- assert (error_count s1 < max_error_count w) as Hlt1 by lia.
           destruct (IH s1 Hlt1) as [Hb Hs]. split; [lia|exact Hs].
        -- lia.
Qed.

(** X8.  A HEARTBEAT received while distribution is on is answered
    ACKNOWLEDGE; the sender's heartbeat is set to the time of the receive
    and nothing else of the state changes. *)
Theorem heartbeat_is_acknowledged
    (w : deployment) (u : turn) (s : master_state) (m : recv_message) (c : string) :
  TASK_DISTRIBUTION s = true ->
  signals u = [] ->
  arrives w u m c ->
  type m = HEARTBEAT ->
  exists s',
    iteration w u s = (Ok tt, s')
    /\ replies (trace s') = replies (trace s) ++ [Acknowledge]
    /\ controller_heartbeat_dict s' =
         dict_set c (time_recv u) (controller_heartbeat_dict s)
    /\ task_status_dict s' = task_status_dict s
    /\ task_queue s' = task_queue s ++ generated u
    /\ result_queue s' = result_queue s
    /\ TASK_DISTRIBUTION s' = true
    /\ run_flag s' = run_flag s
    /\ error_count s' = error_count s
    /\ controller_wait_duration s' = controller_wait_duration s.
Proof.
  intros Hon Hq (raw & Hraw & Hrecv & Hdec & Hsender) Htype.
  destruct s as [td rf ec hb tsd cwd tq rq tr]; cbn in *. subst td.
  destruct raw as [|ch raw]; [done|].
  run_turn. cbn. rewrite Hq. cbn. rewrite Hrecv. cbn. rewrite Hdec. cbn.
  rewrite Hsender, Htype. cbn.
  eexists; split; [reflexivity|]. cbn.
  rewrite !replies_app. cbn. rewrite !app_nil_r. done.
Qed.

(** X9.  A message of any other type than TASK_REQUEST, TASK_FINISHED and
    HEARTBEAT, received while distribution is on, is not answered: the
    error is counted and distribution stops.  The sender's heartbeat is
    recorded all the same. *)
Theorem undefined_type_is_an_error
    (w : deployment) (u : turn) (s : master_state) (m : recv_message) (c : string) :
  TASK_DISTRIBUTION s = true ->
  signals u = [] ->
  arrives w u m c ->
  type m <> TASK_REQUEST ->
  type m <> TASK_FINISHED ->
  type m <> HEARTBEAT ->
  exists s',
    iteration w u s = (Ok tt, s')
    /\ replies (trace s') = replies (trace s)
    /\ LogException (RuntimeError "Undefined type found in message") ∈ trace s'
    /\ error_count s' = error_count s + 1
    /\ TASK_DISTRIBUTION s' = false
    /\ controller_heartbeat_dict s' =
         dict_set c (time_recv u) (controller_heartbeat_dict s)
    /\ task_status_dict s' = task_status_dict s.
Proof.
  intros Hon Hq (raw & Hraw & Hrecv & Hdec & Hsender) H1 H2 H3.
  destruct s as [td rf ec hb tsd cwd tq rq tr]; cbn in *. subst td.
  destruct raw as [|ch raw]; [done|].
  run_turn. cbn. rewrite Hq. cbn. rewrite Hrecv. cbn. rewrite Hdec. cbn.
  rewrite Hsender. cbn.
  destruct (type m); try done; cbn.
  all: destruct (ec + 1 =? max_error_count w); cbn.
  all: eexists; split; [reflexivity|]; cbn.
  all: rewrite !replies_app; cbn; rewrite !app_nil_r.
  all: repeat split; rewrite ?elem_of_app, ?list_elem_of_singleton; auto.
Qed.


(** X11.  A poll timeout while distribution is on changes nothing: no reply,
    no error, and heartbeats, records, flags and queues stay as they
    are. *)
Theorem poll_timeout_while_on_is_idle
    (w : deployment) (u : turn) (s : master_state) :
  TASK_DISTRIBUTION s = true ->
  signals u = [] ->
  times_out u ->
  exists s',
    iteration w u s = (Ok tt, s')
    /\ replies (trace s') = replies (trace s)
    /\ controller_heartbeat_dict s' = controller_heartbeat_dict s
    /\ task_status_dict s' = task_status_dict s
    /\ task_queue s' = task_queue s ++ generated u
    /\ result_queue s' = result_queue s
    /\ TASK_DISTRIBUTION s' = true
    /\ run_flag s' = run_flag s
    /\ error_count s' = error_count s.
Proof.
  intros Hon Hq Hout.
  destruct s as [td rf ec hb tsd cwd tq rq tr]; cbn in *. subst td.
  run_turn. cbn. rewrite Hq. cbn.
  destruct Hout as [-> | ->]; cbn.
  all: eexists; split; [reflexivity|]; cbn.
  all: rewrite !replies_app; cbn; rewrite !app_nil_r; done.
Qed.

(** One message during drain, with the state it leaves. *)
Lemma drain_turn
    (w : deployment) (u : turn) (s : master_state) (m : recv_message) (c : string) :
  TASK_DISTRIBUTION s = false ->
  arrives w u m c ->
  exists s',
    iteration w u s = (Ok tt, s')
    /\ TASK_DISTRIBUTION s' = false
    /\ controller_heartbeat_dict s' = dict_pop c (controller_heartbeat_dict s)
    /\ run_flag s' = match dict_pop c (controller_heartbeat_dict s) with
                     | [] => false
                     | _ => run_flag s
                     end
    /\ error_count s' = error_count s
    /\ replies (trace s') = replies (trace s) ++ [ExitCommand].
Proof.
  intros Hoff (raw & Hraw & Hrecv & Hdec & Hsender).
  destruct (deliver_effect (signals u) (set_task_queue (task_queue s ++ generated u) s))
    as (logs & Hdel & Hlogs).
  destruct s as [td rf ec hb tsd cwd tq rq tr]; cbn in *. subst td.
  destruct raw as [|ch raw]; [done|].
  run_turn. cbn in *. rewrite Hdel. cbn. rewrite Hrecv. cbn. rewrite Hdec. cbn.
  rewrite Hsender. cbn.
  assert (match signals u with [] => false | _ => false end = false) as ->
    by (by destruct (signals u)).
  cbn. rewrite dict_pop_set.
  destruct (dict_pop c hb) as [|kv rest] eqn:Hpop; cbn.
  all: eexists; split; [reflexivity|]; cbn.
  all: rewrite !replies_app, Hlogs; cbn; rewrite !app_nil_r; done.
Qed.

Lemma dict_pop_other_key (d : list (string * Z)) (k c : string) :
  k ∈ dict_keys d -> k <> c -> k ∈ dict_keys (dict_pop c d).
Proof.
  induction d as [|[k0 v0] d IH]; cbn; [done|].
  rewrite elem_of_cons. intros [->|Hin] Hne.
  - destruct (String.eqb_spec c k0) as [->|_]; [done|]. cbn. left.
  - destruct (String.eqb_spec c k0) as [->|_]; [done|]. cbn. right. by apply IH.
Qed.

Lemma dict_pop_removes (d : list (string * Z)) (c : string) :
  NoDup (dict_keys d) -> c ∉ dict_keys (dict_pop c d).
Proof.
  induction d as [|[k0 v0] d IH]; cbn; [intros _; apply not_elem_of_nil|].
  intros [Hk0 Hd]%NoDup_cons.
  destruct (String.eqb_spec c k0) as [->|Hne]; [done|]. cbn.
  apply not_elem_of_cons. split; [done|]. by apply IH.
Qed.

(** X12.  Drain ends: when distribution is off and every controller of the
    heartbeat dictionary sends one more message, each is answered EXIT and
    the loop stops with an empty dictionary. *)
Theorem drain_terminates
    (w : deployment) (turns : list turn) (senders : list string) (s : master_state) :
  TASK_DISTRIBUTION s = false ->
  run_flag s = true ->
  NoDup (dict_keys (controller_heartbeat_dict s)) ->
  turns <> [] ->
  Forall2 (fun u c => exists m, arrives w u m c) turns senders ->
  (forall k, k ∈ dict_keys (controller_heartbeat_dict s) -> k ∈ senders) ->
  let s' := (while_run_flag w turns s).2 in
  run_flag s' = false
  /\ controller_heartbeat_dict s' = []
  /\ error_count s' = error_count s
  /\ exists n, (0 < n <= length turns)%nat
               /\ replies (trace s') = replies (trace s) ++ replicate n ExitCommand.
Proof.
  intros Hoff Hrun Hnd Hne Hall. revert s Hoff Hrun Hnd Hne.
  induction Hall as [|u c turns senders [m Harr] Hall IH];
    intros s Hoff Hrun Hnd Hne Hkeys; [done|]. cbn zeta.
  rewrite while_run_flag_cons, Hrun.
  destruct (drain_turn w u s m c Hoff Harr) as (s1 & E & Hoff1 & Hhb & Hflag & Hec & Hrep).
  rewrite E.
  pose proof (dict_pop_removes _ c Hnd) as Hgone.
  pose proof (dict_pop_NoDup _ c Hnd) as Hnd1.
  assert (forall k, k ∈ dict_keys (controller_heartbeat_dict s1) -> k ∈ senders) as Hkeys1.
  { intros k Hk. rewrite Hhb in Hk.
    pose proof (Hkeys k (dict_pop_keys _ c k Hk)) as Hin.
    apply elem_of_cons in Hin as [->|Hin]; [done|exact Hin]. }
  destruct (dict_pop c (controller_heartbeat_dict s)) as [|kv rest] eqn:Hpop.
  - rewrite (while_run_flag_stopped w turns s1 Hflag). cbn.
    repeat split; try done. exists 1%nat. cbn. split; [lia|]. exact Hrep.
  - assert (turns <> []) as Hne1.
    { intros ->. apply Forall2_nil_inv_l in Hall as ->.
      apply (not_elem_of_nil kv.1), Hkeys1. rewrite Hhb. cbn. left. }
    rewrite <- Hhb in Hnd1. rewrite Hrun in Hflag.
    destruct (IH s1 Hoff1 Hflag Hnd1 Hne1 Hkeys1) as (Hstop & Hempty & Hec' & n & Hn & Hreps).
    repeat split; try done; [congruence|].
    exists (S n). cbn. split; [lia|].
    rewrite Hreps, Hrep, <- app_assoc. done.
Qed.
End DispatchMore.

(** ** The shutdown of the task generator *)

Section Shutdown.
Import MasterShutdown.

Ltac run_shutdown :=
  unfold finish, stop_generator, is_alive, emit, sleep, try_except, modify, gets,
    lift, raise, pass, mbind, SE_bind, mret, SE_ret.

(** The waiting loop of a generator that lives for [d] more seconds, begun
    after [t] seconds with [n] rounds left. *)
Lemma wait_for_generator_rounds (n d : nat) (s : state) :
  wait_for_generator n {| ends_after := Some d |} s =
    (Ok tt,
     mk (error_count s)
        (elapsed s + Nat.min (d - elapsed s) n)
        (trace s ++ concat (replicate (Nat.min (d - elapsed s) n) [LogWaiting; Sleep]))).
Proof.
  revert s. induction n as [|n IH]; intros [ec t tr]; cbn [wait_for_generator].
  - cbn. rewrite Nat.min_0_r, Nat.add_0_r, app_nil_r. done.
  - run_shutdown. cbn -[Nat.ltb Nat.min Nat.sub].
    destruct (Nat.ltb_spec t d) as [Hlt|Hge]; cbn -[Nat.ltb Nat.min Nat.sub].
    + rewrite IH. cbn -[Nat.ltb Nat.min Nat.sub].
      replace (d - t)%nat with (S (d - S t)) by lia.
      rewrite <- Nat.succ_min_distr. cbn -[Nat.ltb Nat.min Nat.sub].
      rewrite <- !app_assoc. cbn -[Nat.ltb Nat.min Nat.sub].
      f_equal. f_equal. lia.
    + replace (d - t)%nat with 0%nat by lia. cbn.
      rewrite Nat.add_0_r, app_nil_r. done.
Qed.

Lemma wait_for_generator_immortal (n : nat) (s : state) :
  wait_for_generator n {| ends_after := None |} s =
    (Ok tt,
     mk (error_count s) (elapsed s + n)
        (trace s ++ concat (replicate n [LogWaiting; Sleep]))).
Proof.
  revert s. induction n as [|n IH]; intros [ec t tr]; cbn [wait_for_generator].
  - cbn. rewrite Nat.add_0_r, app_nil_r. done.
  - run_shutdown. cbn. rewrite IH. cbn.
    rewrite <- !app_assoc. cbn. f_equal. f_equal. lia.
Qed.

(** X13.  After the loop the master signals a living generator, waits for it
    one second at a time and at most ten times, and terminates it exactly
    when it is still alive then; the exit code is 0 exactly when no error
    was counted. *)
Theorem generator_is_given_ten_seconds (d : nat) (errors : Z) :
  (0 < d)%nat ->
  finish (Some {| ends_after := Some d |}) (Ok tt) (after_loop errors) =
    (Ok (if errors =? 0 then 0 else 1),
     mk errors (Nat.min d 10)
        ([Kill_SIGUSR1] ++ waited d
         ++ (if (10 <? d)%nat then [Terminate; Join] else [])
         ++ [LogFinished])).
Proof.
  intros Hd. run_shutdown. cbn -[Nat.ltb Nat.min Nat.sub wait_for_generator].
  destruct (Nat.ltb_spec 0 d) as [_|]; [|lia].
  cbn -[Nat.ltb Nat.min Nat.sub wait_for_generator].
  rewrite wait_for_generator_rounds. cbn -[Nat.ltb Nat.min Nat.sub].
  rewrite Nat.sub_0_r. unfold waited.
  destruct (Nat.ltb_spec (Nat.min d 10) d) as [Hlt|Hge];
    destruct (Nat.ltb_spec 10 d) as [H10|H10]; try lia;
    cbn -[Nat.ltb Nat.min Nat.sub].
  - rewrite <- ?app_assoc. done.
  - rewrite <- ?app_assoc. done.
Qed.

End Shutdown.

(** ** More on the worker *)

Section WorkerMore.
Import Worker WorkerRun.

Ltac run_worker :=
  unfold loop_body, with_CriticalSection, worker_set_state, worker_set_tid,
    worker_set_timestamp, task_execute, result_queue_push, notify, emit,
    set_item, try_except, try_finally, modify, gets, lift, raise, pass, release,
    mbind, SE_bind, mret, SE_ret.

(** X14.  The fields of width 32 are read back as written exactly when the
    value is in the range of the C type: [c_int] for the state, [c_uint]
    for the timestamp. *)
Theorem c_fields_exact_in_range (item : WorkerStateTableItem.t) (v ts : Z) :
  (WorkerStateTableItem.get_state (WorkerStateTableItem.set_state v item) = v
   <-> - 2 ^ 31 <= v < 2 ^ 31)
  /\ (WorkerStateTableItem.get_timestamp (WorkerStateTableItem.set_timestamp ts item) = ts
      <-> 0 <= ts < 2 ^ 32).
Proof.
  unfold WorkerStateTableItem.get_state, WorkerStateTableItem.set_state,
    WorkerStateTableItem.get_timestamp, WorkerStateTableItem.set_timestamp,
    c_int, c_uint. cbn [WorkerStateTableItem._state WorkerStateTableItem._timestamp].
  split; split.
  - intros H. pose proof (Z.mod_pos_bound (v + 2 ^ 31) (2 ^ 32)). lia.
  - intros H. rewrite Z.mod_small; lia.
  - intros H. pose proof (Z.mod_pos_bound ts (2 ^ 32)). lia.
  - intros H. apply Z.mod_small. lia.
Qed.

Lemma str_encode_raises_unicode (s : str) (e : exception) :
  str_encode s = Raise e -> is_Exception e = true.
Proof.
  revert e. induction s as [|c s IH]; intros e; cbn; [discriminate|].
  unfold utf8_encode_char.
  repeat match goal with
         | |- context [if ?b then _ else _] => destruct b
         end; cbn; try (intros [= <-]; reflexivity).
  all: destruct (str_encode s); try (intros [= <-]; reflexivity); try discriminate.
  all: intros [= <-]; by apply IH.
Qed.

(** A name that does not fit is refused with an exception, and the slot is
    not written. *)
Lemma set_tid_refused (item : WorkerStateTableItem.t) (name : str) :
  WorkerStateTableItem.allocated item ->
  WorkerStateTableItem.fits name = false ->
  exists e, WorkerStateTableItem.set_tid name item = Raise e
            /\ is_Exception e = true.
Proof.
  unfold WorkerStateTableItem.allocated, WorkerStateTableItem.fits,
    WorkerStateTableItem.set_tid. intros Hbuf Hfit.
  destruct (str_encode name) as [v|e] eqn:Henc.
  - apply Nat.leb_gt in Hfit. unfold char_array_set_value.
    destruct (Nat.ltb_spec (length (WorkerStateTableItem._tid item)) (length v)); [|lia].
    eexists; split; reflexivity.
  - exists e. split; [reflexivity|]. by apply (str_encode_raises_unicode name).
Qed.

(** One turn on a manageable task. *)
Lemma loop_body_reports (s : state) (task : Task) (t_exec t_ready : Z) :
  WorkerStateTableItem.allocated (worker_state_table_item s) ->
  manageable task ->
  exists s',
    loop_body task t_exec t_ready s = (Ok tt, s')
    /\ result_queue s' = result_queue s ++ [tid task]
    /\ run_flag s' = run_flag s
    /\ WorkerStateTableItem.allocated (worker_state_table_item s').
Proof.
  intros Halloc [Hfit Hexc].
  destruct s as [item rq rf h tr]; simpl in *.
  destruct (set_tid_fits (WorkerStateTableItem.set_state WorkerState.EXECUTING item)
              (tid task) Halloc Hfit) as (i1 & E1 & A1 & _ & _).
  pose (i2 := WorkerStateTableItem.set_state WorkerState.READY
                (WorkerStateTableItem.set_timestamp t_exec i1)).
  destruct (set_tid_empty i2 A1) as (i3 & E3 & A3 & _).
  run_worker. simpl. rewrite E1. simpl.
  destruct (execute task) as [[]|err] eqn:Hexec; simpl.
  - fold i2. rewrite E3. simpl. eexists. repeat split; done.
  - rewrite (Hexc err eq_refl). simpl. fold i2. rewrite E3. simpl.
    eexists. repeat split; done.
Qed.

Lemma worker_loop_cons (u : turn) (turns : list turn) (s : state) :
  while_run_flag (u :: turns) s =
    if run_flag s then
      match loop_body (popped u) (time_executing u) (time_ready u) s with
      | (Ok _, s1) =>
          while_run_flag turns (if sigusr1 u then set_run_flag false s1 else s1)
      | (Raise e, s1) => (Raise e, s1)
      end
    else (Ok tt, s).
Proof.
  cbn [while_run_flag]. unfold mbind, SE_bind, gets, pass, mret, SE_ret, modify.
  destruct (run_flag s); [|done].
  destruct (loop_body _ _ _ s) as [[[]|e] s1]; [|done].
  by destruct (sigusr1 u).
Qed.

Lemma worker_loop_reports (turns : list turn) (s : state) :
  WorkerStateTableItem.allocated (worker_state_table_item s) ->
  run_flag s = true ->
  Forall (fun u => manageable (popped u)) turns ->
  exists s',
    while_run_flag turns s = (Ok tt, s')
    /\ result_queue s' =
         result_queue s ++ map (fun u => tid (popped u)) (processed turns)
    /\ run_flag s' = negb (existsb sigusr1 turns).
Proof.
  intros Halloc Hrun Hall. revert s Halloc Hrun.
  induction Hall as [|u turns Hu Hall IH]; intros s Halloc Hrun.
  - exists s. cbn. by rewrite app_nil_r.
  - rewrite worker_loop_cons, Hrun.
    destruct (loop_body_reports s (popped u) (time_executing u) (time_ready u)
                Halloc Hu) as (s1 & E & Hq & Hf & A1).
    rewrite E. cbn [processed existsb map].
    destruct (sigusr1 u); cbn.
    + exists (set_run_flag false s1). split.
      * destruct turns; [done|]. by rewrite worker_loop_cons.
      * cbn. by rewrite Hq.
    + destruct (IH s1 A1) as (s2 & E2 & Hq2 & Hf2); [congruence|].
      exists s2. split; [exact E2|]. rewrite Hq2, Hq, <- app_assoc. done.
Qed.

(** X15.  A worker that gets manageable tasks reports the tid of each task it
    popped, in the order popped; it ends with exit code 0 after the turn
    during which SIGUSR1 came in, and otherwise goes on waiting for the
    next task. *)
Theorem worker_reports_in_order (t_start : Z) (turns : list turn) (s : state) :
  WorkerStateTableItem.allocated (worker_state_table_item s) ->
  run_flag s = true ->
  Forall (fun u => manageable (popped u)) turns ->
  (run t_start turns s).1 =
    (if existsb sigusr1 turns then Exit 0 else Blocked_in_pop)
  /\ result_queue (run t_start turns s).2 =
       result_queue s ++ map (fun u => tid (popped u)) (processed turns).
Proof.
  intros Halloc Hrun Hall.
  destruct s as [item rq rf h tr]; cbn in Halloc, Hrun. subst rf.
  unfold run. run_worker. cbn.
  match goal with |- context [while_run_flag turns ?st] =>
    destruct (worker_loop_reports turns st) as (s' & E & Hq & Hf) end; [done..|].
  rewrite E. cbn in Hq. rewrite Hf.
  destruct (existsb sigusr1 turns); cbn; done.
Qed.

(** The turn on a task whose tid is refused. *)
Lemma loop_body_refused (s : state) (task : Task) (t_exec t_ready : Z) :
  WorkerStateTableItem.allocated (worker_state_table_item s) ->
  WorkerStateTableItem.fits (tid task) = false ->
  exists e,
    is_Exception e = true
    /\ (loop_body task t_exec t_ready s).1 = Raise e
    /\ result_queue (loop_body task t_exec t_ready s).2 = result_queue s
    /\ run_flag (loop_body task t_exec t_ready s).2 = run_flag s
    /\ trace (loop_body task t_exec t_ready s).2 =
         trace s ++ [Acquire lock_worker_state_table; Release lock_worker_state_table]
    /\ worker_state_table_item (loop_body task t_exec t_ready s).2 =
         WorkerStateTableItem.set_state WorkerState.EXECUTING
           (worker_state_table_item s).
Proof.
  intros Halloc Hfit.
  destruct s as [item rq rf h tr]; simpl in *.
  destruct (set_tid_refused (WorkerStateTableItem.set_state WorkerState.EXECUTING item)
              (tid task) Halloc Hfit) as (e & E & Hexc).
  exists e. split; [exact Hexc|].
  assert (exists h',
            loop_body task t_exec t_ready (mk item rq rf h tr) =
              (Raise e,
               mk (WorkerStateTableItem.set_state WorkerState.EXECUTING item) rq rf h'
                  (tr ++ [Acquire lock_worker_state_table;
                          Release lock_worker_state_table]))) as [h' ->].
  { run_worker. simpl. rewrite E. simpl. eexists. by rewrite <- app_assoc. }
  repeat split.
Qed.

(** The turn on a task whose [execute()] raises what is no [Exception]. *)
Lemma loop_body_interrupted
    (s : state) (task : Task) (t_exec t_ready : Z) (err : exception) :
  WorkerStateTableItem.allocated (worker_state_table_item s) ->
  WorkerStateTableItem.fits (tid task) = true ->
  execute task = Raise err ->
  is_Exception err = false ->
  (loop_body task t_exec t_ready s).1 = Raise err
  /\ result_queue (loop_body task t_exec t_ready s).2 = result_queue s
  /\ run_flag (loop_body task t_exec t_ready s).2 = run_flag s
  /\ trace (loop_body task t_exec t_ready s).2 =
       trace s ++ [Acquire lock_worker_state_table; Release lock_worker_state_table;
                   Executed (tid task)]
  /\ WorkerStateTableItem.get_state
       (worker_state_table_item (loop_body task t_exec t_ready s).2)
     = WorkerState.EXECUTING.
Proof.
  intros Halloc Hfit Hexec Hbase.
  destruct s as [item rq rf h tr]; simpl in *.
  destruct (set_tid_fits (WorkerStateTableItem.set_state WorkerState.EXECUTING item)
              (tid task) Halloc Hfit) as (i1 & E1 & A1 & S1 & _).
  assert (exists h',
            loop_body task t_exec t_ready (mk item rq rf h tr) =
              (Raise err,
               mk (WorkerStateTableItem.set_timestamp t_exec i1) rq rf h'
                  (tr ++ [Acquire lock_worker_state_table;
                          Release lock_worker_state_table;
                          Executed (tid task)]))) as [h' ->].
  { run_worker. simpl. rewrite E1. simpl. rewrite Hexec. simpl. rewrite Hbase. simpl.
    eexists. by rewrite <- !app_assoc. }
  repeat split.
  unfold WorkerStateTableItem.get_state. simpl. rewrite S1. reflexivity.
Qed.

(** X16.  A task whose tid does not fit the slot ends the worker: the error
    leaves the loop and the process exits with code 1.  [execute()] is not
    called, nothing is pushed onto the result queue, the table lock is
    released, and the slot is left in state EXECUTING with the tid it had. *)
Theorem oversized_tid_ends_worker
    (t_start : Z) (u : turn) (rest : list turn) (s : state) :
  WorkerStateTableItem.allocated (worker_state_table_item s) ->
  run_flag s = true ->
  WorkerStateTableItem.fits (tid (popped u)) = false ->
  exists e,
    (run t_start (u :: rest) s).1 = Exit 1
    /\ result_queue (run t_start (u :: rest) s).2 = result_queue s
    /\ trace (run t_start (u :: rest) s).2 =
         trace s ++
         [LogDebug "Started Worker";
          Acquire lock_worker_state_table; Release lock_worker_state_table;
          Acquire lock_worker_state_table; Release lock_worker_state_table;
          LogError e]
    /\ WorkerStateTableItem.get_state
         (worker_state_table_item (run t_start (u :: rest) s).2)
       = WorkerState.EXECUTING
    /\ WorkerStateTableItem._tid
         (worker_state_table_item (run t_start (u :: rest) s).2)
       = WorkerStateTableItem._tid (worker_state_table_item s).
Proof.
  intros Halloc Hrun Hfit.
  destruct s as [item rq rf h tr]; simpl in Halloc, Hrun. subst rf.
  unfold run. run_worker. cbn -[while_run_flag].
  rewrite worker_loop_cons. cbn [run_flag].
  match goal with |- context [loop_body ?task ?t1 ?t2 ?st] =>
    destruct (loop_body_refused st task t1 t2 Halloc Hfit)
      as (e & Hexc & H1 & Hq & _ & Htr & Hitem);
    destruct (loop_body task t1 t2 st) as [r s1] end.
  simpl in H1, Hq, Htr, Hitem. subst r. rewrite Hexc. simpl.
  exists e. rewrite Hq, Htr, Hitem. repeat split.
  by rewrite <- !app_assoc.
Qed.

(** X17.  An exception of [execute()] that does not derive from [Exception]
    is not swallowed: it leaves [run], nothing is logged or pushed onto the
    result queue after the call, and the slot stays in state EXECUTING. *)
Theorem base_exception_leaves_run
    (t_start : Z) (u : turn) (rest : list turn) (s : state) (err : exception) :
  WorkerStateTableItem.allocated (worker_state_table_item s) ->
  run_flag s = true ->
  WorkerStateTableItem.fits (tid (popped u)) = true ->
  execute (popped u) = Raise err ->
  is_Exception err = false ->
  (run t_start (u :: rest) s).1 = Uncaught err
  /\ result_queue (run t_start (u :: rest) s).2 = result_queue s
  /\ trace (run t_start (u :: rest) s).2 =
       trace s ++
       [LogDebug "Started Worker";
        Acquire lock_worker_state_table; Release lock_worker_state_table;
        Acquire lock_worker_state_table; Release lock_worker_state_table;
        Executed (tid (popped u))]
  /\ WorkerStateTableItem.get_state
       (worker_state_table_item (run t_start (u :: rest) s).2)
     = WorkerState.EXECUTING.
Proof.
  intros Halloc Hrun Hfit Hexec Hbase.
  destruct s as [item rq rf h tr]; simpl in Halloc, Hrun. subst rf.
  unfold run. run_worker. cbn -[while_run_flag].
  rewrite worker_loop_cons. cbn [run_flag].
  match goal with |- context [loop_body ?task ?t1 ?t2 ?st] =>
    destruct (loop_body_interrupted st task t1 t2 err Halloc Hfit Hexec Hbase)
      as (H1 & Hq & _ & Htr & Hitem);
    destruct (loop_body task t1 t2 st) as [r s1] end.
  simpl in H1, Hq, Htr, Hitem. subst r. rewrite Hbase. simpl.
  rewrite Hq, Htr, Hitem. repeat split.
  by rewrite <- !app_assoc.
Qed.

Lemma get_value_up_to_nul (v rest : bytes) :
  char_array_get_value (v ++ 0 :: rest) = up_to_nul v.
Proof.
  induction v as [|b v IH]; [reflexivity|]. simpl.
  destruct (b =? 0); [reflexivity|]. by rewrite IH.
Qed.

Lemma get_value_whole (v : bytes) : char_array_get_value v = up_to_nul v.
Proof.
  induction v as [|b v IH]; [reflexivity|]. simpl.
  destruct (b =? 0); [reflexivity|]. by rewrite IH.
Qed.

Lemma up_to_nul_ascii (v : str) : is_ascii v = true -> is_ascii (up_to_nul v) = true.
Proof.
  induction v as [|b v IH]; [reflexivity|]. simpl.
  intros [Hb Hv]%andb_prop. destruct (b =? 0); [reflexivity|].
  simpl. rewrite Hb. by apply IH.
Qed.

(** Storing an ASCII name: what is read back, and the state field kept. *)
Lemma set_tid_ascii_effect (item : WorkerStateTableItem.t) (name : str) :
  WorkerStateTableItem.allocated item ->
  is_ascii name = true ->
  (length name <= 64)%nat ->
  exists item',
    WorkerStateTableItem.set_tid name item = Ok item'
    /\ WorkerStateTableItem.get_tid item' = Ok (up_to_nul name)
    /\ WorkerStateTableItem._state item' = WorkerStateTableItem._state item.
Proof.
  unfold WorkerStateTableItem.allocated, WorkerStateTableItem.set_tid,
    WorkerStateTableItem.get_tid. intros Hbuf Hascii Hlen.
  rewrite (encode_ascii _ Hascii). unfold char_array_set_value.
  destruct (Nat.ltb_spec (length (WorkerStateTableItem._tid item)) (length name));
    [lia|].
  destruct (Nat.ltb_spec (length name) (length (WorkerStateTableItem._tid item))).
  - eexists; split; [reflexivity|]. simpl. split; [|reflexivity].
    rewrite get_value_up_to_nul. apply decode_ascii. by apply up_to_nul_ascii.
  - eexists; split; [reflexivity|]. simpl. split; [|reflexivity].
    rewrite get_value_whole. apply decode_ascii. by apply up_to_nul_ascii.
Qed.

(** X18.  A NUL inside an ASCII name cuts it: what [get_tid] gives back after
    [set_tid] is the name up to its first NUL. *)
Theorem nul_cuts_the_tid (item : WorkerStateTableItem.t) (name : str) :
  WorkerStateTableItem.allocated item ->
  is_ascii name = true ->
  (length name <= 64)%nat ->
  exists item',
    WorkerStateTableItem.set_tid name item = Ok item'
    /\ WorkerStateTableItem.get_tid item' = Ok (up_to_nul name).
Proof.
  intros Halloc Hascii Hlen.
  destruct (set_tid_ascii_effect item name Halloc Hascii Hlen)
    as (item' & E & G & _).
  by exists item'.
Qed.

Lemma up_to_nul_without_nul (v : str) : 0 ∉ v -> up_to_nul v = v.
Proof.
  induction v as [|b v IH]; [reflexivity|].
  intros [Hb Hv]%not_elem_of_cons. simpl.
  destruct (Z.eqb_spec b 0); [congruence|]. by rewrite IH.
Qed.

(** X19.  What a worker publishes in one critical section is what a reader of
    the slot gets: after [set_state], [set_tid] and [set_timestamp] with a
    state and a time in the range of their C types and an ASCII name of at
    most 64 bytes without NUL, the three getters give back the three
    values. *)
Theorem published_triple_is_read_back
    (item : WorkerStateTableItem.t) (v ts : Z) (name : str) :
  WorkerStateTableItem.allocated item ->
  - 2 ^ 31 <= v < 2 ^ 31 ->
  0 <= ts < 2 ^ 32 ->
  is_ascii name = true -> (length name <= 64)%nat -> 0 ∉ name ->
  exists item1,
    WorkerStateTableItem.set_tid name (WorkerStateTableItem.set_state v item) = Ok item1
    /\ let item' := WorkerStateTableItem.set_timestamp ts item1 in
       WorkerStateTableItem.get_state item' = v
       /\ WorkerStateTableItem.get_tid item' = Ok name
       /\ WorkerStateTableItem.get_timestamp item' = ts.
Proof.
  intros Halloc Hv Hts Hascii Hlen Hnul.
  destruct (set_tid_ascii_effect (WorkerStateTableItem.set_state v item) name
              Halloc Hascii Hlen) as (item1 & E & G & S).
  exists item1. split; [exact E|]. cbn zeta.
  unfold WorkerStateTableItem.get_state, WorkerStateTableItem.get_timestamp,
    WorkerStateTableItem.get_tid in *. simpl.
  rewrite S, G, (up_to_nul_without_nul _ Hnul). simpl. unfold c_int, c_uint.
  repeat split.
  - rewrite Z.mod_small; lia.
  - apply Z.mod_small. lia.
Qed.

(** X20.  A turn of the loop never ends with a lock held, whatever the task
    does: not when the tid is refused, not when [execute()] raises. *)
Theorem no_lock_left_held (s : state) (task : Task) (t_exec t_ready : Z) :
  held s = [] ->
  held (loop_body task t_exec t_ready s).2 = [].
Proof.
  intros Hheld. destruct s as [item rq rf h tr]; simpl in Hheld. subst h.
  run_worker. simpl.
  repeat (match goal with
          | |- context [match ?x with _ => _ end] =>
              lazymatch x with
              | context [match _ with _ => _ end] => fail
              | _ => destruct x eqn:?
              end
          end; simpl); reflexivity.
Qed.
End WorkerMore.

(** ** The critical section on a lock *)

Section CriticalSections.
Import CriticalSectionBlock.

(** X21.  When the lock is held by another process and the acquisition times
    out, the block runs its body all the same, and leaving the block
    releases the lock of the other process: the body ran without the lock,
    and its holder has lost it. *)
Theorem timed_out_block_takes_the_lock_away
    {B A : Type} (self : CriticalSection.t) (seconds : Z)
    (body : SE (Lock.t * B) A) (b : B) :
  CriticalSection._block self = true ->
  CriticalSection._timeout self = Some seconds ->
  keeps_lock body ->
  run self false body (Some Lock.another_process, b) =
    Some ((body (Some Lock.another_process, b)).1,
          (None, (body (Some Lock.another_process, b)).2.2)).
Proof.
  intros Hblock Htimeout Hkeeps. unfold run, Lock.acquire. cbn.
  rewrite Hblock, Htimeout.
  pose proof (Hkeeps (Some Lock.another_process) b) as Hl. unfold Lock.t in *.
  destruct (body (Some Lock.another_process, b)) as [r [l2 b2]].
  cbn in Hl. rewrite Hl. cbn. by destruct r.
Qed.

(** X22.  On a free lock the block holds the lock while its body runs and
    has released it afterwards, also when the body raised; the outcome of
    the block is the outcome of the body. *)
Theorem free_lock_is_held_and_released
    {B A : Type} (self : CriticalSection.t) (freed : bool)
    (body : SE (Lock.t * B) A) (b : B) :
  keeps_lock body ->
  run self freed body (None, b) =
    Some ((body (Some Lock.this_process, b)).1,
          (None, (body (Some Lock.this_process, b)).2.2)).
Proof.
  intros Hkeeps. unfold run, Lock.acquire. cbn.
  pose proof (Hkeeps (Some Lock.this_process) b) as Hl. unfold Lock.t in *.
  destruct (body (Some Lock.this_process, b)) as [r [l2 b2]].
  cbn in Hl. rewrite Hl. cbn. by destruct r.
Qed.

(** X23.  Whenever the block is left, the lock is unlocked: [__exit__]
    releases without asking whether [__enter__] acquired. *)
Theorem lock_is_unlocked_after_the_block
    {B A : Type} (self : CriticalSection.t) (freed : bool)
    (body : SE (Lock.t * B) A) (s : Lock.t * B)
    (r : outcome A) (s' : Lock.t * B) :
  run self freed body s = Some (r, s') -> s'.1 = None.
Proof.
  unfold run.
  destruct (Lock.acquire _ _ freed s.1) as [[] l1];
    try discriminate;
    destruct (body (l1, s.2)) as [r0 [l2 b2]];
    destruct l2; cbn; intros [= <- <-]; reflexivity.
Qed.

End CriticalSections.

(** ** The configuration of the controller *)

Section Configuration.
Import ControllerConfigFileReader.

Ltac lookups :=
  repeat match goal with
         | |- context [lookup ?r] => destruct r eqn:?; cbn
         | H : context [lookup ?r] |- _ => destruct r eqn:?; cbn in H
         end.

(** X24.  The reader yields a configuration exactly when the file exists and
    parses, the eight options are there, and the worker count is between 1
    and 1000; the poll timeout it then holds is the configured one times
    1000. *)
Theorem reader_accepts (f : config_file) (c : t) :
  __init__ f = inr c
  <-> isfile f = true
      /\ read f = None
      /\ get f "control" "pid_file" = inr (pid_file c)
      /\ getint f "control" "request_retry_wait_duration"
         = inr (request_retry_wait_duration c)
      /\ getint f "control" "max_num_request_retries"
         = inr (max_num_request_retries c)
      /\ get f "comm" "target" = inr (comm_target c)
      /\ getint f "comm" "port" = inr (comm_port c)
      /\ (exists seconds, getint f "comm" "poll_timeout" = inr seconds
                          /\ poll_timeout c = seconds * 1000)
      /\ get f "log" "filename" = inr (log_filename c)
      /\ getint f "processing" "worker_count" = inr (worker_count c)
      /\ 1 <= worker_count c <= 1000.
Proof.
  unfold __init__, validate, mbind, error_bind. split.
  - destruct (isfile f); cbn; [|discriminate].
    destruct (read f); [discriminate|].
    lookups; try discriminate.
    match goal with |- context [if ?b then _ else _] => destruct b eqn:Hrange end;
      [discriminate|].
    intros [= <-]. cbn. apply orb_false_elim in Hrange as [H1 H2].
    apply Z.ltb_ge in H1, H2. repeat split; eauto; lia.
  - intros (Hfile & Hread & Hpid & Hwait & Hretries & Htarget & Hport
            & (seconds & Hpoll & Hms) & Hlog & Hworkers & Hrange).
    rewrite Hfile, Hread, Hpid, Hwait, Hretries, Htarget, Hport, Hpoll, Hlog, Hworkers.
    cbn.
    destruct (Z.ltb_spec (worker_count c) 1); [lia|].
    destruct (Z.ltb_spec 1000 (worker_count c)); [lia|]. cbn.
    f_equal. destruct c; cbn in *. by subst.
Qed.

(** X25.  A worker count below 1 or above 1000 is refused with a
    ConfigValueError when everything else of the file is in order. *)
Theorem worker_count_out_of_range (f : config_file)
    (pid target log : string) (wait retries port poll workers : Z) :
  isfile f = true ->
  read f = None ->
  get f "control" "pid_file" = inr pid ->
  getint f "control" "request_retry_wait_duration" = inr wait ->
  getint f "control" "max_num_request_retries" = inr retries ->
  get f "comm" "target" = inr target ->
  getint f "comm" "port" = inr port ->
  getint f "comm" "poll_timeout" = inr poll ->
  get f "log" "filename" = inr log ->
  getint f "processing" "worker_count" = inr workers ->
  workers < 1 \/ 1000 < workers ->
  __init__ f = inl (ConfigValueError "Not supported worker count detected").
Proof.
  intros Hfile Hread Hpid Hwait Hretries Htarget Hport Hpoll Hlog Hworkers Hrange.
  unfold __init__, validate, mbind, error_bind.
  rewrite Hfile, Hread, Hpid, Hwait, Hretries, Htarget, Hport, Hpoll, Hlog, Hworkers.
  cbn.
  destruct (Z.ltb_spec workers 1); [done|].
  destruct (Z.ltb_spec 1000 workers); [done|lia].
Qed.

End Configuration.

(** ** Striping a file onto one OST *)

Section Striping.
Import Stdlib.Strings.Ascii.
Import LFSUtils.

(** X26.  [set_stripe] returns normally exactly when the [lfs] binary is a
    file, the command it runs ends with a status that is not positive, and
    the target is a file once the command is done. *)
Theorem set_stripe_succeeds
    (shell : string -> gset string -> executed) (self : t)
    (ost_name file_path : string) (w : world) :
  let r := shell (stripe_command self ost_name file_path) (files w) in
  (set_stripe shell self ost_name file_path w).1 = Ok tt
  <-> lfs_bin self ∈ files w /\ status r <= 0 /\ file_path ∈ files_after r.
Proof.
  cbn. unfold set_stripe, isfile, gets, modify, raise, pass, mbind, SE_bind. cbn.
  case_bool_decide as Hbin; cbn.
  - destruct (Z.ltb_spec 0 (status (shell (stripe_command self ost_name file_path)
                                      (files w)))) as [Hpos|Hok]; cbn.
    + split; [discriminate|lia].
    + case_bool_decide as Hfile; cbn.
      * split; [done|auto].
      * split; [discriminate|tauto].
  - split; [discriminate|tauto].
Qed.

(** X27.  Without the binary nothing is run and the files stay as they are;
    with it exactly one command is run, on the index that follows the first
    three characters of the OST name, and the files are the ones this
    command leaves, whether [set_stripe] then raises or not. *)
Theorem set_stripe_runs_one_command
    (shell : string -> gset string -> executed) (lfs : string)
    (a b c : ascii) (idx file_path : string) (w : world) :
  let ost_name := String a (String b (String c idx)) in
  let cmd := lfs +:+ " setstripe --stripe-index 0x" +:+ idx
               +:+ " --stripe-count 1 --stripe-size 0 " +:+ file_path in
  let w' := (set_stripe shell (__init__ lfs) ost_name file_path w).2 in
  if bool_decide (lfs ∈ files w)
  then commands w' = commands w ++ [cmd]
       /\ files w' = files_after (shell cmd (files w))
  else w' = w.
Proof.
  cbn. unfold set_stripe, isfile, gets, modify, raise, pass, mbind, SE_bind. cbn.
  case_bool_decide as Hbin; cbn; [|done].
  unfold stripe_command. cbn.
  destruct (0 <? _); cbn; [done|].
  by case_bool_decide.
Qed.

End Striping.

(** ** The mail of the alert task *)

Section AlertMail.
Import Stdlib.Strings.Ascii.
Import AlertIOTask.

Lemma split_char_cons (sep : ascii) (s : string) :
  exists head tail, split_char sep s = head :: tail.
Proof. destruct s as [|a s]; cbn; [eauto|]. destruct (Ascii.eqb a sep); [eauto|].
  destruct (split_char sep s); eauto. Qed.

Lemma split_char_length (sep : ascii) (s : string) :
  length (split_char sep s) = S (count_char sep s).
Proof.
  induction s as [|a s IH]; cbn; [done|].
  destruct (Ascii.eqb a sep); cbn; [by rewrite IH|].
  destruct (split_char sep s); cbn in *; [done|]. done.
Qed.

Lemma split_char_entries (sep other : ascii) (s : string) :
  count_char other s = 0%nat ->
  Forall (fun r => count_char sep r = 0%nat /\ count_char other r = 0%nat)
         (split_char sep s).
Proof.
  induction s as [|a s IH]; cbn.
  - intros _. by repeat constructor.
  - destruct (Ascii.eqb a other) eqn:Ho; [discriminate|]. cbn. intros Hs.
    specialize (IH Hs).
    destruct (Ascii.eqb a sep) eqn:Hsep.
    + constructor; [done|apply IH].
    + destruct (split_char sep s) as [|head tail]; cbn.
      * repeat constructor; cbn; by rewrite ?Hsep, ?Ho.
      * inversion IH as [|? ? [H1 H2] Htail]; subst.
        constructor; [|done]. cbn. by rewrite Hsep, Ho.
Qed.

Lemma remove_char_count (c : ascii) (s : string) :
  count_char c (remove_char c s) = 0%nat.
Proof.
  induction s as [|a s IH]; cbn; [done|].
  destruct (Ascii.eqb a c) eqn:E; cbn; [done|]. by rewrite E.
Qed.

Lemma remove_char_other (c d : ascii) (s : string) :
  c <> d -> count_char d (remove_char c s) = count_char d s.
Proof.
  intros Hne. induction s as [|a s IH]; cbn; [done|].
  destruct (Ascii.eqb a c) eqn:E; cbn.
  - apply Ascii.eqb_eq in E. subst a.
    destruct (Ascii.eqb c d) eqn:E'; [apply Ascii.eqb_eq in E'; done|]. done.
  - by rewrite IH.
Qed.

Lemma join_after_empty (sep : string) (head : string) (tail : list string) :
  join sep (EmptyString :: head :: tail) = sep +:+ join sep (head :: tail).
Proof. reflexivity. Qed.

Lemma join_longer_head (sep : string) (a : ascii) (head : string) (tail : list string) :
  join sep (String a head :: tail) = String a (join sep (head :: tail)).
Proof. by destruct tail. Qed.

(** Joining with [", "] what was split at [","], and dropping the spaces,
    gives the text back. *)
Lemma join_split_char (s : string) :
  count_char " " s = 0%nat ->
  remove_char " " (join ", " (split_char "," s)) = s.
Proof.
  induction s as [|a s IH]; [done|].
  cbn [count_char split_char].
  destruct (Ascii.eqb a " ") eqn:Hsp; [discriminate|]. cbn [Nat.add]. intros Hs.
  specialize (IH Hs).
  destruct (split_char_cons "," s) as (head & tail & E). rewrite E in *.
  destruct (Ascii.eqb a ",") eqn:Hc.
  - apply Ascii.eqb_eq in Hc. subst a.
    rewrite join_after_empty.
    change (", " +:+ ?x) with (String "," (String " " x)).
    cbn [remove_char]. cbn [Ascii.eqb Bool.eqb]. by rewrite IH.
  - rewrite join_longer_head. cbn [remove_char]. by rewrite Hsp, IH.
Qed.

(** X28.  The receivers of a mail are as many as the configured text has
    commas, plus one, and none of them holds a space or a comma. *)
Theorem receivers_are_split_at_commas (server sender receiver : string) :
  let self := mail_settings server sender receiver in
  length (mail_receiver_list self) = S (count_char "," receiver)
  /\ Forall (fun r => count_char "," r = 0%nat /\ count_char " " r = 0%nat)
            (mail_receiver_list self).
Proof.
  cbn. split.
  - rewrite split_char_length. f_equal. by apply remove_char_other.
  - apply split_char_entries, remove_char_count.
Qed.

(** X29.  The call of the timer passes the checks of [_send_mail]; the mail
    goes to the receiver list, and its [To] header is, up to spaces, the
    configured receiver text. *)
Theorem timer_mail_goes_to_the_receivers
    (server sender receiver subject body : string) :
  let self := mail_settings server sender receiver in
  exists m, timer_call self subject body = Ok m
    /\ header_subject m = subject
    /\ text m = body
    /\ envelope_to m = mail_receiver_list self
    /\ remove_char " " (header_to m) = remove_char " " receiver.
Proof.
  cbn. eexists. split; [reflexivity|]. cbn -[join split_char remove_char].
  repeat split. apply join_split_char, remove_char_count.
Qed.

End AlertMail.

(** ** The receive of the communication handler, when a message comes *)

Section Receive.
Import MasterCommHandler.

(** X30.  [recv] returns the first message that arrives, as soon as it has
    arrived; until then it is waiting. *)
Theorem recv_returns_first_arrival
    (self : t) (arrivals : nat -> option string) (now ticks k : nat)
    (in_msg : string) :
  arrivals (now + k)%nat = Some in_msg ->
  (forall j, (j < k)%nat -> arrivals (now + j)%nat = None) ->
  recv self arrivals now ticks =
    if (k <=? ticks)%nat then Returned (Some in_msg) else Waiting.
Proof.
  unfold recv. revert now ticks.
  induction k as [|k IH]; intros now ticks Hat Hbefore.
  - rewrite Nat.add_0_r in Hat. destruct ticks; cbn; by rewrite Hat.
  - pose proof (Hbefore 0%nat ltac:(lia)) as H0. rewrite Nat.add_0_r in H0.
    destruct ticks as [|ticks]; cbn; rewrite H0; [done|].
    rewrite (IH (S now) ticks).
    + done.
    + by replace (S now + k)%nat with (now + S k)%nat by lia.
    + intros j Hj. replace (S now + j)%nat with (now + S j)%nat by lia.
      apply Hbefore. lia.
Qed.

End Receive.

(** * The statements at concrete runs *)

Section Runs.

Import Master Scenario.

(** The slot still holds the longer name "LONGER-T" when "T9" is stored. *)
Lemma set_tid_get_tid_witness :
  exists item',
    WorkerStateTableItem.set_tid [84; 57] used_slot = Ok item'
    /\ WorkerStateTableItem.get_tid item' = Ok [84; 57].
Proof.
  apply (set_tid_get_tid used_slot [84; 57]).
  - reflexivity.
  - reflexivity.
  - cbn. lia.
  - intros H. repeat (apply elem_of_cons in H as [H|H]; [discriminate H|]).
    by apply elem_of_nil in H.
Defined.




(** Spec scenario S1, second half: c1 reports T1 finished at second 120. *)
Lemma task_finished_handled_witness :
  exists s',
    iteration as_shipped (at_second 120 (Some "FIN c1 T1") true)
      T1_assigned_to_c1 = (Ok tt, s')
    /\ result_queue s' = ["T1"]
    /\ replies (trace s') = [Acknowledge].
Proof.
  destruct (task_finished_handled as_shipped
              (at_second 120 (Some "FIN c1 T1") true) T1_assigned_to_c1
              {| type := TASK_FINISHED; sender := Some "c1"; msg_tid := Some "T1" |}
              "c1" "T1" 120)
    as (s' & E & Hfin & _);
    [reflexivity | reflexivity
    | exists "FIN c1 T1"; repeat split; discriminate
    | reflexivity | reflexivity | reflexivity | ].
  exists s'. split; [exact E|].
  destruct (Hfin {| item_tid := "T1"; state := assigned;
                    controller := "c1"; timestamp := 100 |})
    as (_ & Q & R); [reflexivity | reflexivity |].
  split; [exact Q | exact R].
Defined.

(** The string "garbage" does not decode: no reply, one error. *)
Lemma malformed_message_gets_no_reply_witness :
  exists s',
    iteration as_shipped (at_second 50 (Some "garbage") true) (started 5) = (Ok tt, s')
    /\ replies (trace s') = []
    /\ error_count s' = 1
    /\ TASK_DISTRIBUTION s' = false.
Proof.
  destruct (malformed_message_gets_no_reply as_shipped
              (at_second 50 (Some "garbage") true) (started 5)
              "garbage" (MessageError "garbage"))
    as (s' & E & R & C & T & _);
    [discriminate | reflexivity | reflexivity | reflexivity | ].
  exists s'. split; [exact E|]. split; [exact R|]. split; [exact C | exact T].
Defined.



Lemma draining_keys_distinct :
  NoDup (dict_keys (controller_heartbeat_dict draining)).
Proof.
  apply NoDup_cons. split.
  - intros H. apply list_elem_of_singleton in H. discriminate H.
  - apply NoDup_singleton.
Defined.


(** Both c1 and c2 have expired at second 100; the poll times out.  Only c1
    is removed, and the turn ends in an error. *)
Lemma pruning_raises_after_first_removal_witness :
  exists s',
    iteration as_shipped (at_second 100 None true) draining = (Ok tt, s')
    /\ controller_heartbeat_dict s' = [("c2", 0)]
    /\ without_expired as_shipped 100 (controller_heartbeat_dict draining) = []
    /\ error_count s' = 1
    /\ run_flag s' = true.
Proof.
  destruct (pruning_raises_after_first_removal as_shipped
              (at_second 100 None true) draining [("c2", 0)])
    as (s' & E & H & _ & C & F);
    [ reflexivity | left; reflexivity | apply draining_keys_distinct
    | reflexivity | ].
  exists s'. split; [exact E|]. split; [exact H|]. split; [reflexivity|].
  split; [exact C | exact F].
Defined.

(** With one expired controller left, the dictionary is empty after the
    turn and the loop still runs. *)
Example lone_expired_controller :
  let s' := (iteration as_shipped (at_second 100 None true)
               (set_controller_heartbeat_dict [("c2", 0)] draining)).2 in
  controller_heartbeat_dict s' = [] /\ run_flag s' = true /\ error_count s' = 1.
Proof. repeat split; vm_compute; reflexivity. Qed.

(** c1 asks for a task while T1 is queued; the class under [ctrl/] is in
    use. *)
Lemma success_test_raises_witness :
  exists s',
    iteration as_shipped (at_second 100 (Some "REQ c1") true)
      (queued [T1] (started 5)) = (Ok tt, s')
    /\ task_queue s' = [T1]
    /\ replies (trace s') = []
    /\ error_count s' = 1.
Proof.
  destruct (success_test_raises as_shipped
              (at_second 100 (Some "REQ c1") true) (queued [T1] (started 5))
              {| type := TASK_REQUEST; sender := Some "c1"; msg_tid := None |} "c1")
    as (s' & E & _ & Q & R & C & _);
    [ reflexivity | reflexivity | reflexivity
    | exists "REQ c1"; repeat split; discriminate
    | reflexivity | ].
  exists s'. split; [exact E|]. split; [exact Q|]. split; [exact R | exact C].
Defined.

End Runs.

(** * More statements at concrete runs *)

Section MoreRuns.
Import Master Scenario.

(** At second 5 neither c1 nor c2, seen at second 0, has expired. *)
Lemma pruning_without_expired_witness :
  exists s',
    iteration as_shipped (at_second 5 None true) draining = (Ok tt, s')
    /\ controller_heartbeat_dict s' = [("c1", 0); ("c2", 0)]
    /\ run_flag s' = true.
Proof.
  destruct (pruning_without_expired as_shipped (at_second 5 None true) draining)
    as (s' & E & H & _ & F);
    [ reflexivity | left; reflexivity | apply draining_keys_distinct
    | reflexivity | ].
  exists s'. split; [exact E|]. split; [exact H | exact F].
Defined.


(** c1 reports T1, which it holds, at second 120. *)
Lemma finished_only_by_assignee_witness :
  exists raw m,
    recv_string (at_second 120 (Some "FIN c1 T1") true) = Ok (Some raw)
    /\ create raw = Ok m
    /\ sender m = Some "c1"
    /\ result_queue
         (iteration as_shipped (at_second 120 (Some "FIN c1 T1") true)
            T1_assigned_to_c1).2 = ["T1"].
Proof.
  destruct (finished_only_by_assignee as_shipped
              (at_second 120 (Some "FIN c1 T1") true) T1_assigned_to_c1 "T1"
              {| item_tid := "T1"; state := assigned;
                 controller := "c1"; timestamp := 100 |}
              {| item_tid := "T1"; state := finished;
                 controller := "c1"; timestamp := 120 |})
    as (raw & m & R & D & _ & _ & S & _ & Q);
    [ reflexivity | reflexivity | vm_compute; reflexivity | reflexivity | ].
  exists raw, m. split; [exact R|]. split; [exact D|]. split; [exact S | exact Q].
Defined.


(** Three strings that do not decode, sent to a master that gives up at
    the second error: the third is not read any more. *)
Lemma error_count_bounded_witness :
  let s' := (while_run_flag Cases.impatient
               [at_second 50 (Some "garbage") true;
                at_second 51 (Some "garbage") true;
                at_second 52 (Some "garbage") true] (started 5)).2 in
  0 <= error_count s' <= 2
  /\ (error_count s' = 2 -> run_flag s' = false).
Proof.
  apply (error_count_bounded Cases.impatient
           [at_second 50 (Some "garbage") true;
            at_second 51 (Some "garbage") true;
            at_second 52 (Some "garbage") true] (started 5));
    [reflexivity | reflexivity].
Defined.

(** c1 sends a heartbeat at second 50. *)
Lemma heartbeat_is_acknowledged_witness :
  exists s',
    iteration as_shipped (at_second 50 (Some "HB c1") true) (started 5) = (Ok tt, s')
    /\ replies (trace s') = [Acknowledge]
    /\ controller_heartbeat_dict s' = [("c1", 50)].
Proof.
  destruct (heartbeat_is_acknowledged as_shipped
              (at_second 50 (Some "HB c1") true) (started 5)
              {| type := HEARTBEAT; sender := Some "c1"; msg_tid := None |} "c1")
    as (s' & E & R & H & _);
    [ reflexivity | reflexivity
    | exists "HB c1"; repeat split; discriminate
    | reflexivity | ].
  exists s'. split; [exact E|]. split; [exact R | exact H].
Defined.

(** c1 sends an ACKNOWLEDGE to the master. *)
Lemma undefined_type_is_an_error_witness :
  exists s',
    iteration Cases.with_confused_peer (at_second 50 (Some "ACK c1") true)
      (started 5) = (Ok tt, s')
    /\ replies (trace s') = []
    /\ error_count s' = 1
    /\ TASK_DISTRIBUTION s' = false
    /\ controller_heartbeat_dict s' = [("c1", 50)].
Proof.
  destruct (undefined_type_is_an_error Cases.with_confused_peer
              (at_second 50 (Some "ACK c1") true) (started 5)
              {| type := ACKNOWLEDGE; sender := Some "c1"; msg_tid := None |} "c1")
    as (s' & E & R & _ & C & T & H & _);
    [ reflexivity | reflexivity
    | exists "ACK c1"; repeat split; discriminate
    | discriminate | discriminate | discriminate | ].
  exists s'. split; [exact E|]. split; [exact R|]. split; [exact C|].
  split; [exact T | exact H].
Defined.


(** Nothing comes in at second 50 while c1 holds T1. *)
Lemma poll_timeout_while_on_is_idle_witness :
  exists s',
    iteration as_shipped (at_second 50 None true) T1_assigned_to_c1 = (Ok tt, s')
    /\ replies (trace s') = []
    /\ controller_heartbeat_dict s' = [("c1", 100)]
    /\ task_status_dict s' = task_status_dict T1_assigned_to_c1.
Proof.
  destruct (poll_timeout_while_on_is_idle as_shipped
              (at_second 50 None true) T1_assigned_to_c1)
    as (s' & E & R & H & T & _);
    [ reflexivity | reflexivity | left; reflexivity | ].
  exists s'. split; [exact E|]. split; [exact R|]. split; [exact H | exact T].
Defined.

(** While the master drains, c1 sends a heartbeat and c2 asks for a task. *)
Lemma drain_terminates_witness :
  let s' := (while_run_flag as_shipped
               [at_second 300 (Some "HB c1") true;
                at_second 301 (Some "REQ c2") true] draining).2 in
  run_flag s' = false
  /\ controller_heartbeat_dict s' = []
  /\ error_count s' = 0
  /\ exists n, (0 < n <= 2)%nat /\ replies (trace s') = replicate n ExitCommand.
Proof.
  apply (drain_terminates as_shipped
           [at_second 300 (Some "HB c1") true; at_second 301 (Some "REQ c2") true]
           ["c1"; "c2"] draining).
  - reflexivity.
  - reflexivity.
  - apply draining_keys_distinct.
  - discriminate.
  - repeat constructor.
    + exists {| type := HEARTBEAT; sender := Some "c1"; msg_tid := None |}.
      exists "HB c1". repeat split. discriminate.
    + exists {| type := TASK_REQUEST; sender := Some "c2"; msg_tid := None |}.
      exists "REQ c2". repeat split. discriminate.
  - intros k Hk. exact Hk.
Defined.

(** A generator that needs three more seconds, after a loop without
    errors. *)
Lemma generator_is_given_ten_seconds_witness :
  MasterShutdown.finish (Some {| MasterShutdown.ends_after := Some 3%nat |}) (Ok tt)
    (MasterShutdown.after_loop 0)
  = (Ok 0,
     MasterShutdown.mk 0 3
       [MasterShutdown.Kill_SIGUSR1;
        MasterShutdown.LogWaiting; MasterShutdown.Sleep;
        MasterShutdown.LogWaiting; MasterShutdown.Sleep;
        MasterShutdown.LogWaiting; MasterShutdown.Sleep;
        MasterShutdown.LogFinished]).
Proof. apply (generator_is_given_ten_seconds 3 0). lia. Defined.

Lemma used_slot_allocated : WorkerStateTableItem.allocated used_slot.
Proof. reflexivity. Defined.

(** T1, then T9, which raises and during which SIGUSR1 comes in; T1 again
    is not popped any more. *)
Lemma worker_reports_in_order_witness :
  (Worker.run 0 [Cases.pops Cases.T1 10 false; Cases.pops T9 20 true;
                 Cases.pops Cases.T1 30 false]
     (Worker.started used_slot [])).1 = Worker.Exit 0
  /\ Worker.result_queue
       (Worker.run 0 [Cases.pops Cases.T1 10 false; Cases.pops T9 20 true;
                      Cases.pops Cases.T1 30 false]
          (Worker.started used_slot [])).2
     = [[84; 49]; [84; 57]].
Proof.
  apply (worker_reports_in_order 0
           [Cases.pops Cases.T1 10 false; Cases.pops T9 20 true;
            Cases.pops Cases.T1 30 false] (Worker.started used_slot [])).
  - apply used_slot_allocated.
  - reflexivity.
  - repeat constructor; cbn; intros err [=]; subst; reflexivity.
Defined.

(** A tid of 65 characters. *)
Lemma oversized_tid_ends_worker_witness :
  (Worker.run 0 [Cases.pops Cases.T_wide 10 false] (Worker.started used_slot [])).1
  = Worker.Exit 1
  /\ Worker.result_queue
       (Worker.run 0 [Cases.pops Cases.T_wide 10 false]
          (Worker.started used_slot [])).2 = [].
Proof.
  destruct (oversized_tid_ends_worker 0 (Cases.pops Cases.T_wide 10 false) []
              (Worker.started used_slot []))
    as (e & E & Q & _);
    [apply used_slot_allocated | reflexivity | reflexivity | ].
  split; [exact E | exact Q].
Defined.

(** The process is interrupted while T2 executes. *)
Lemma base_exception_leaves_run_witness :
  (Worker.run 0 [Cases.pops Cases.T_interrupted 10 false]
     (Worker.started used_slot [])).1 = Worker.Uncaught KeyboardInterrupt
  /\ Worker.result_queue
       (Worker.run 0 [Cases.pops Cases.T_interrupted 10 false]
          (Worker.started used_slot [])).2 = [].
Proof.
  destruct (base_exception_leaves_run 0 (Cases.pops Cases.T_interrupted 10 false) []
              (Worker.started used_slot []) KeyboardInterrupt)
    as (E & Q & _);
    [apply used_slot_allocated | reflexivity | reflexivity | reflexivity
    | reflexivity | ].
  split; [exact E | exact Q].
Defined.

(** The name "T", NUL, "9" is read back as "T". *)
Lemma nul_cuts_the_tid_witness :
  exists item',
    WorkerStateTableItem.set_tid [84; 0; 57] used_slot = Ok item'
    /\ WorkerStateTableItem.get_tid item' = Ok [84].
Proof.
  apply (nul_cuts_the_tid used_slot [84; 0; 57]).
  - apply used_slot_allocated.
  - reflexivity.
  - cbn. lia.
Defined.

(** EXECUTING "T9" since second 7. *)
Lemma published_triple_is_read_back_witness :
  exists item1,
    WorkerStateTableItem.set_tid [84; 57] (WorkerStateTableItem.set_state 2 used_slot)
    = Ok item1
    /\ let item' := WorkerStateTableItem.set_timestamp 7 item1 in
       WorkerStateTableItem.get_state item' = 2
       /\ WorkerStateTableItem.get_tid item' = Ok [84; 57]
       /\ WorkerStateTableItem.get_timestamp item' = 7.
Proof.
  apply (published_triple_is_read_back used_slot 2 7 [84; 57]).
  - apply used_slot_allocated.
  - lia.
  - lia.
  - reflexivity.
  - cbn. lia.
  - intros H. repeat (apply elem_of_cons in H as [H|H]; [discriminate H|]).
    by apply elem_of_nil in H.
Defined.

(** T9 raises in [execute()]. *)
Lemma no_lock_left_held_witness :
  Worker.held (Worker.loop_body T9 10 11 (Worker.started used_slot [])).2 = [].
Proof. apply (no_lock_left_held (Worker.started used_slot []) T9 10 11). reflexivity. Defined.

Lemma count_up_keeps_lock : CriticalSectionBlock.keeps_lock Cases.count_up.
Proof. intros l b. reflexivity. Defined.

(** Another process holds the lock for longer than the five seconds this
    one waits. *)
Lemma timed_out_block_takes_the_lock_away_witness :
  CriticalSectionBlock.run (CriticalSection.__init__ None (Some 5)) false
    Cases.count_up (Some Lock.another_process, 0%nat)
  = Some (Ok tt, (None, 1%nat)).
Proof.
  apply (timed_out_block_takes_the_lock_away
           (CriticalSection.__init__ None (Some 5)) 5 Cases.count_up 0%nat);
    [reflexivity | reflexivity | apply count_up_keeps_lock].
Defined.

(** The lock is free. *)
Lemma free_lock_is_held_and_released_witness :
  CriticalSectionBlock.run (CriticalSection.__init__ None None) false
    Cases.count_up (None, 0%nat)
  = Some (Ok tt, (None, 1%nat)).
Proof.
  apply (free_lock_is_held_and_released
           (CriticalSection.__init__ None None) false Cases.count_up 0%nat).
  apply count_up_keeps_lock.
Defined.

(** A lock that is asked for without blocking while another process holds
    it. *)
Lemma lock_is_unlocked_after_the_block_witness :
  CriticalSectionBlock.run (CriticalSection.__init__ (Some false) None) false
    Cases.count_up (Some Lock.another_process, 0%nat)
  = Some (Ok tt, (None, 1%nat))
  /\ (@None Lock.holder, 1%nat).1 = None.
Proof.
  split; [reflexivity|].
  apply (lock_is_unlocked_after_the_block
           (CriticalSection.__init__ (Some false) None) false Cases.count_up
           (Some Lock.another_process, 0%nat) (Ok tt) (None, 1%nat)).
  reflexivity.
Defined.

(** A file that asks for 1001 workers. *)
Lemma worker_count_out_of_range_witness :
  ControllerConfigFileReader.__init__ (Cases.controller_conf 1001)
  = inl (ControllerConfigFileReader.ConfigValueError
           "Not supported worker count detected").
Proof.
  apply (worker_count_out_of_range (Cases.controller_conf 1001)
           "/run/cyclone.pid" "master.example.org" "/var/log/cyclone.log"
           2 3 5555 10 1001);
    try reflexivity.
  right. lia.
Defined.

(** "REQ c1" arrives at tick 3; the caller has waited 5 ticks. *)
Lemma recv_returns_first_arrival_witness :
  MasterCommHandler.recv (MasterCommHandler.__init__ "localhost" 5555)
    Cases.one_arrival 0 5
  = MasterCommHandler.Returned (Some "REQ c1").
Proof.
  apply (recv_returns_first_arrival (MasterCommHandler.__init__ "localhost" 5555)
           Cases.one_arrival 0 5 3 "REQ c1").
  - reflexivity.
  - intros j Hj. unfold Cases.one_arrival. cbn.
    destruct (Nat.eqb_spec j 3); [lia | reflexivity].
Defined.

End MoreRuns.
